(** * bookshelf-cursor-pagination: a shallow embedding of [src/index.js]

    The plugin adds [fetchCursorPage] to Bookshelf models and collections.
    It decodes an [after]/[before] cursor from the options object, reads
    the [orderByBasic] statements accumulated on the knex query builder,
    attaches a keyset predicate with [orWhere], fetches one page, and runs
    a [COUNT(DISTINCT table.id)] query next to it.

    The development is organised as the source is:
    - [JS]: the JavaScript values the plugin receives and the built-ins it
      calls on them ([parseInt], [Array.isArray], truthiness, [String]);
    - [Knex]: the query builder, as the list of statements the plugin
      inspects, filters and extends;
    - the plugin's own functions, under the names they have in the source;
    - [Bookshelf]: the objects owning a query builder, with their identity,
      so that a builder reached through two names is one builder. *)

From Stdlib Require Import ZArith Ascii String DecimalString DecimalZ.
From stdpp Require Import gmap strings list fin_maps.

Open Scope Z_scope.
Open Scope string_scope.

(* ===================================================================== *)
(** * JavaScript values and built-ins *)
(* ===================================================================== *)

Module JS.

(** Numbers.  The plugin only ever produces numbers through [parseInt] and
    [Math.ceil] of a quotient, and consumes the ones found in the options
    object and in a count row.  [Int z] is the integer-valued double [z];
    the embedding is exact for the integers whose decimal print has no
    exponent (magnitude below 10^21) and whose quotients are computed
    exactly enough for [Math.ceil] (magnitude below 2^53).  Doubles with a
    fractional part are outside the model. *)
Inductive number :=
| NaN
| Infinity (negative : bool)
| Int (z : Z).

(** The values that can sit in an options object, in a cursor or in a
    record attribute: [undefined] and the JSON values.  Symbols, functions
    and objects overriding [toString] are outside the model; [VObject] is
    a plain object, of which the plugin's built-ins only see
    ["[object Object]"]. *)
#[warnings="-register-all"]
Inductive value :=
| VUndefined
| VNull
| VBool (b : bool)
| VNumber (n : number)
| VString (s : string)
| VArray (elements : list value)
| VObject.

#[global] Instance number_eq_dec : EqDecision number.
Proof. solve_decision. Defined.

(** [Array.isArray(val)] *)
Definition isArray (val : value) : bool :=
  match val with
  | VArray _ => true
  | _ => false
  end.

(** [!!val]: ToBoolean. *)
Definition truthy (val : value) : bool :=
  match val with
  | VUndefined | VNull => false
  | VBool b => b
  | VNumber NaN => false
  | VNumber (Int z) => negb (z =? 0)%Z
  | VNumber (Infinity _) => true
  | VString s => negb (String.eqb s "")
  | VArray _ | VObject => true
  end.

(** Number::toString for the numbers of the model. *)
Definition number_toString (n : number) : string :=
  match n with
  | NaN => "NaN"
  | Infinity false => "Infinity"
  | Infinity true => "-Infinity"
  | Int z => NilZero.string_of_int (Z.to_int z)
  end.

(** ToString, as applied by [parseInt] to its argument and by a template
    literal to an interpolated value.  [Array.prototype.toString] joins
    the elements with a comma, printing [undefined] and [null] as the
    empty string. *)
Fixpoint toString (val : value) : string :=
  match val with
  | VUndefined => "undefined"
  | VNull => "null"
  | VBool true => "true"
  | VBool false => "false"
  | VNumber n => number_toString n
  | VString s => s
  | VArray elements =>
      String.concat ","
        (List.map (fun e => match e with
                            | VUndefined | VNull => ""
                            | _ => toString e
                            end) elements)
  | VObject => "[object Object]"
  end.

(** StrWhiteSpaceChar among the code units below 256: TAB, LF, VT, FF, CR,
    SP and NBSP. *)
Definition isWhiteSpace (c : ascii) : bool :=
  let n := nat_of_ascii c in
  ((9 <=? n) && (n <=? 13) || (n =? 32) || (n =? 160))%nat.

Definition digitValue (c : ascii) : option Z :=
  let n := Z.of_nat (nat_of_ascii c) in
  if ((48 <=? n) && (n <=? 57))%Z then Some (n - 48) else None.

Fixpoint trimStart (s : string) : string :=
  match s with
  | String c rest => if isWhiteSpace c then trimStart rest else s
  | EmptyString => s
  end.

(** The value of the longest prefix of decimal digits, [None] when the
    string does not start with a digit. *)
Fixpoint digits (s : string) (acc : option Z) : option Z :=
  match s with
  | String c rest =>
      match digitValue c with
      | Some d => digits rest (Some (10 * default 0 acc + d))
      | None => acc
      end
  | EmptyString => acc
  end.

(** [parseInt(string, 10)] on a string: leading white space is skipped,
    one sign is read, then the longest run of decimal digits; anything
    after it is ignored, and no digit at all gives [NaN]. *)
Definition parseInt_string (s : string) : number :=
  let s := trimStart s in
  let '(negative, s) :=
    match s with
    | String "-" rest => (true, rest)
    | String "+" rest => (false, rest)
    | _ => (false, s)
    end in
  match digits s None with
  | Some n => Int (if negative : bool then - n else n)
  | None => NaN
  end.

(** [parseInt(val, 10)]: the argument is first converted with ToString. *)
Definition parseInt (val : value) : number :=
  parseInt_string (toString val).

(** [Number.isNaN] *)
Definition isNaN (n : number) : bool :=
  match n with
  | NaN => true
  | _ => false
  end.

(** [Math.ceil(a / b)] for the numbers of the model; [None] stands for an
    [undefined] operand, which ToNumber turns into [NaN].  The sign of a
    zero result is not tracked. *)
Definition ceil_div (a : option number) (b : number) : number :=
  match a, b with
  | None, _ | Some NaN, _ | _, NaN => NaN
  | Some (Infinity _), Infinity _ => NaN
  | Some (Infinity neg), Int l => Infinity (xorb neg (l <? 0)%Z)
  | Some (Int _), Infinity _ => Int 0
  | Some (Int r), Int l =>
      if (l =? 0)%Z then
        if (r =? 0)%Z then NaN else Infinity (r <? 0)%Z
      else Int (- ((- r) / l))
  end.

End JS.

Export JS.

(* ===================================================================== *)
(** * Errors and the two effects of the plugin *)
(* ===================================================================== *)

(** The plugin throws [new Error(message)] in three places; the
    JavaScript engine itself throws a [TypeError] when a property is read
    off [undefined] or something that is not a function is called. *)
Inductive error :=
| Error (message : string)
| TypeError.

#[global] Instance error_eq_dec : EqDecision error.
Proof. solve_decision. Defined.

(** Code that may throw and touches no object. *)
Definition result (A : Type) : Type := error + A.

#[global] Instance result_ret : MRet result := λ A x, inr x.
#[global] Instance result_bind : MBind result :=
  λ A B f m, match m with inl e => inl e | inr x => f x end.

(** Code that mutates an object of type [S] and may throw.  An exception
    does not undo the mutations made before it: the state is returned on
    both outcomes. *)
Definition M (S A : Type) : Type := S → result A * S.

#[global] Instance M_ret {S} : MRet (M S) := λ A x s, (inr x, s).
#[global] Instance M_bind {S} : MBind (M S) :=
  λ A B f m s, match m s with
               | (inr x, s') => f x s'
               | (inl e, s') => (inl e, s')
               end.

Definition get {S} : M S S := λ s, (inr s, s).
Definition modify {S} (f : S → S) : M S unit := λ s, (inr (), f s).
Definition throw {S A} (e : error) : M S A := λ s, (inl e, s).
Definition lift {S A} (r : result A) : M S A := λ s, (r, s).

(** The three messages of the source, under the names the specification
    gives to the failures. *)
Definition InvalidCursorInput (val : value) : error :=
  Error (toString val ++ " is not an array").
Definition UnsupportedSortTarget : error :=
  Error "sorting by joined table not supported by cursor paging yet".
Definition CursorSortMismatch : error :=
  Error "sort/cursor mismatch".

(* ===================================================================== *)
(** * The knex query builder *)
(* ===================================================================== *)

Module Knex.

(** The [bool] field of a where statement: how it is joined to the
    statements before it. *)
Inductive boolop := And | Or.

(** The statements of a builder's [_statements] array.  The plugin builds
    [orderByBasic], [whereWrapped], [whereBasic] and [aggregate]
    statements, reads the [value] and [direction] of an [orderByBasic],
    and looks at the [type] and [grouping] of every other one; the
    remaining constructors are the statements of its documented use (a
    joined, grouped and filtered query).  The callback of a
    [whereWrapped] is represented by the statements it adds to the nested
    builder it is run on. *)
#[warnings="-register-all"]
Inductive statement :=
| orderByBasic (value : string) (direction : option string)
| orderByRaw (sql : string)
| groupByBasic (value : string)
| groupByRaw (sql : string)
| columns (value : list string)
| aggregate (method : string) (value : string) (aggregateDistinct : bool)
| whereBasic (column : string) (operator : string) (value : JS.value)
             (bool : boolop)
| whereWrapped (body : list statement) (bool : boolop)
| whereRaw (sql : string) (bool : boolop)
| havingRaw (sql : string)
| join (joinType : string) (table : string) (first second : string).

(** [statement.type]; [None] where the property is not a string (a
    select list has none, and on a join clause it is a method). *)
Definition statement_type (s : statement) : option string :=
  match s with
  | orderByBasic _ _ => Some "orderByBasic"
  | orderByRaw _ => Some "orderByRaw"
  | groupByBasic _ => Some "groupByBasic"
  | groupByRaw _ => Some "groupByRaw"
  | columns _ => None
  | aggregate _ _ _ => Some "aggregate"
  | whereBasic _ _ _ _ => Some "whereBasic"
  | whereWrapped _ _ => Some "whereWrapped"
  | whereRaw _ _ => Some "whereRaw"
  | havingRaw _ => Some "havingRaw"
  | join _ _ _ _ => None
  end.

(** [statement.grouping] *)
Definition statement_grouping (s : statement) : string :=
  match s with
  | orderByBasic _ _ | orderByRaw _ => "order"
  | groupByBasic _ | groupByRaw _ => "group"
  | columns _ | aggregate _ _ _ => "columns"
  | whereBasic _ _ _ _ | whereWrapped _ _ | whereRaw _ _ => "where"
  | havingRaw _ => "having"
  | join _ _ _ _ => "join"
  end.

(** A builder: its statements and the [limit] of its [_single] record. *)
Record builder := Builder {
  _statements : list statement;
  _single_limit : option Z
}.

(** The builder Bookshelf creates for an object that has none yet. *)
Definition blank : builder := Builder [] None.

Definition push (s : statement) (qb : builder) : builder :=
  Builder (_statements qb ++ [s]) (_single_limit qb).

(** [qb.clone()]: a new builder with a copy of the statements. *)
Definition clone (qb : builder) : builder :=
  Builder (_statements qb) (_single_limit qb).

(** [qb.orderBy(column, direction)] *)
Definition orderBy (column : string) (direction : option string)
  : builder → builder :=
  push (orderByBasic column direction).

(** [this.andWhere(column, operator, value)] *)
Definition andWhere (column operator : string) (value : JS.value)
  : builder → builder :=
  push (whereBasic column operator value And).

(** [qb.orWhere(callback)]: the callback is run on a nested builder and
    what it adds there becomes one parenthesised group. *)
Definition orWhere (callback : builder → builder) : builder → builder :=
  push (whereWrapped (_statements (callback blank)) Or).

(** [qb.limit(value)]: knex keeps the value when it parses to an integer
    and otherwise leaves the builder as it is. *)
Definition limit (value : number) (qb : builder) : builder :=
  match value with
  | Int z => Builder (_statements qb) (Some z)
  | _ => qb
  end.

(** [qb.countDistinct(column)] *)
Definition countDistinct (column : string) : builder → builder :=
  push (aggregate "count" column true).

End Knex.

Export Knex.

(* ===================================================================== *)
(** * The plugin *)
(* ===================================================================== *)

Definition DEFAULT_LIMIT : number := Int 10.

(** [ensurePositiveIntWithDefault(val, def)] *)
Definition ensurePositiveIntWithDefault (val : value) (def : number)
  : number :=
  if negb (truthy val) then def
  else
    let _val := parseInt val in
    if isNaN _val then def else _val.

(** ** [count]: the statements removed, and the reading of the result *)

Definition notNeededQueries : list string :=
  ["orderByBasic"; "orderByRaw"; "groupByBasic"; "groupByRaw"].

(** The predicate handed to lodash's [remove]:
    [notNeededQueries.indexOf(statement.type) > -1 ||
     statement.grouping === 'columns']. *)
Definition notNeeded (s : statement) : bool :=
  match statement_type s with
  | Some t => bool_decide (t ∈ notNeededQueries)
  | None => false
  end
  || String.eqb (statement_grouping s) "columns".

(** lodash's [remove(array, predicate)] drops, in place, the elements the
    predicate holds of. *)
Definition remove (predicate : statement → bool) (qb : builder) : builder :=
  Builder (List.filter (λ s, negb (predicate s)) (_statements qb))
          (_single_limit qb).

(** The body of the callback given to [counter.query], after [qb] has
    been assigned the clone [base] of [self.query()]. *)
Definition count_query (base : builder) (tableName idAttribute : string)
  : builder :=
  countDistinct (tableName ++ "." ++ idAttribute) (remove notNeeded base).

(** A fetched record: its [attributes]. *)
Abbreviation model := (gmap string value).

(** [model.get(name)] *)
Definition get_attribute (m : model) (name : string) : value :=
  default VUndefined (m !! name).

Record metadata := Metadata {
  metadata_limit : number;
  metadata_rowCount : option number
}.

(** The [then] callback of [count].  [result] is what [fetchAll] resolved
    to, [None] for a falsy one; [Object.keys(attributes)] has length one
    exactly when the attributes are a singleton map. *)
Definition count_metadata (limit : number) (result : option (list model))
  : metadata :=
  match result with
  | Some [modelsCount] =>
      match map_to_list modelsCount with
      | [(key, _)] =>
          Metadata limit (Some (parseInt (get_attribute modelsCount key)))
      | _ => Metadata limit None
      end
  | _ => Metadata limit None
  end.

(** ** [applyCursor] *)

Inductive sign := Gt | Lt.

(** [reverseSign] *)
Definition reverseSign (s : sign) : sign :=
  match s with
  | Gt => Lt
  | Lt => Gt
  end.

(** The operator string handed to [andWhere]. *)
Definition operator_of (s : sign) : string :=
  match s with
  | Gt => ">"
  | Lt => "<"
  end.

Inductive cursorType := After | Before.

Record Cursor := {
  type : cursorType;
  columnValues : list value
}.

(** An element of [sortedColumns]: the [orderByBasic] statement with its
    [value] replaced by [name].  Of the other fields, only [direction] is
    read. *)
Record SortColumn := {
  name : string;
  direction : option string
}.

(** [String.prototype.split] with a one-character separator. *)
Fixpoint split (sep : ascii) (s : string) : list string :=
  match s with
  | EmptyString => [""]
  | String c rest =>
      if Ascii.eqb c sep then "" :: split sep rest
      else match split sep rest with
           | part :: parts => String c part :: parts
           | [] => [String c ""]
           end
  end.

(** The function mapped over the [orderByBasic] statements:
    [const [tableName, colName] = value.split('.')], then the two tests. *)
Definition sortedColumn (mainTableName : string) (s : statement)
  : result SortColumn :=
  match s with
  | orderByBasic value direction =>
      let parts := split "." value in
      let tableName := List.hd "" parts in
      match parts !! 1%nat with
      | None => inr {| name := tableName; direction := direction |}
      | Some colName =>
          if bool_decide (tableName ≠ mainTableName)
          then inl UnsupportedSortTarget
          else inr {| name := colName; direction := direction |}
      end
  | _ => inl TypeError
  end.

Definition is_orderByBasic (s : statement) : bool :=
  bool_decide (statement_type s = Some "orderByBasic").

(** [Array.prototype.map] with a function that may throw: the elements
    are visited from the left and the first exception ends the loop. *)
Fixpoint map_result {A B} (f : A → result B) (l : list A)
  : result (list B) :=
  match l with
  | [] => inr []
  | x :: l' =>
      y ← f x;
      ys ← map_result f l';
      mret (y :: ys)
  end.

Definition sortedColumns (mainTableName : string) (qb : builder)
  : result (list SortColumn) :=
  map_result (sortedColumn mainTableName)
             (List.filter is_orderByBasic (_statements qb)).

(** The sign of one sort column. *)
Definition sign_of (cursorType : cursorType) (direction : option string)
  : sign :=
  let sign := Gt in
  let sign := match cursorType with
              | Before => reverseSign sign
              | After => sign
              end in
  if bool_decide (direction = Some "DESC") then reverseSign sign else sign.

(** The callback given to [qb.orWhere] for the column [currentCol]: one
    equality per visited column, then the comparison. *)
Definition whereGroup (cursor : Cursor) (visitedCols : list SortColumn)
    (currentCol : SortColumn) (this : builder) : builder :=
  let this :=
    List.fold_left
      (λ this '(idx, visitedCol),
         andWhere (name visitedCol) "="
                  (List.nth idx (columnValues cursor) VUndefined) this)
      (imap (λ idx visitedCol, (idx, visitedCol)) visitedCols) this in
  andWhere (name currentCol)
           (operator_of (sign_of (type cursor) (direction currentCol)))
           (List.nth (length visitedCols) (columnValues cursor) VUndefined)
           this.

(** [buildWhere]; destructuring the head of an empty array and reading
    [name] off it is a [TypeError]. *)
Fixpoint buildWhere (cursor : Cursor) (cols : list SortColumn)
    (visitedCols : list SortColumn) : M builder unit :=
  match cols with
  | [] => throw TypeError
  | currentCol :: remainingCols =>
      modify (orWhere (whereGroup cursor visitedCols currentCol));;
      match remainingCols with
      | [] => mret ()
      | _ :: _ => buildWhere cursor remainingCols (visitedCols ++ [currentCol])
      end
  end.

(** [applyCursor(qb, cursor, mainTableName, idAttribute)], acting on [qb].
    The closure [extractCursors] it returns is determined by the
    [sortedColumns] it captures, which stand for it here. *)
Definition applyCursor (cursor : option Cursor)
    (mainTableName idAttribute : string) : M builder (list SortColumn) :=
  qb ← get;
  let isNotSorted :=
    (length (List.filter is_orderByBasic (_statements qb)) =? 0)%nat in
  (if isNotSorted
   then modify (orderBy (mainTableName ++ "." ++ idAttribute) None)
   else mret ());;
  qb ← get;
  sortedColumns ← lift (sortedColumns mainTableName qb);
  match cursor with
  | Some cursor =>
      if bool_decide (length sortedColumns ≠ length (columnValues cursor))
      then throw CursorSortMismatch
      else buildWhere cursor sortedColumns []
  | None => mret ()
  end;;
  mret sortedColumns.

Record cursors := {
  after : option (list value);
  before : option (list value)
}.

Definition model2cursor (sortedColumns : list SortColumn) (m : model)
  : list value :=
  List.map (λ c, get_attribute m (name c)) sortedColumns.

(** [extractCursors(coll)]; [coll.models] is the list and [coll.length]
    its length. *)
Definition extractCursors (sortedColumns : list SortColumn)
    (coll : list model) : cursors :=
  if (length coll =? 0)%nat then {| after := None; before := None |}
  else
    let before := model2cursor sortedColumns <$> coll !! 0%nat in
    let after :=
      model2cursor sortedColumns <$> coll !! (length coll - 1)%nat in
    {| after := after; before := before |}.

(** [ensureArray] *)
Definition ensureArray (val : value) : result unit :=
  if negb (isArray val) then inl (InvalidCursorInput val) else inr ().

(** The elements of a value that passed [ensureArray]. *)
Definition elements_of (val : value) : list value :=
  match val with
  | VArray elements => elements
  | _ => []
  end.

(** The immediately invoked function that [fetchCursorPage] binds to
    [cursor].  ['after' in options] is membership of the key, whatever the
    value under it. *)
Definition cursor_of (options : gmap string value)
  : result (option Cursor) :=
  match options !! "after" with
  | Some after =>
      ensureArray after;;
      mret (Some {| type := After; columnValues := elements_of after |})
  | None =>
      match options !! "before" with
      | Some before =>
          ensureArray before;;
          mret (Some {| type := Before; columnValues := elements_of before |})
      | None => mret None
      end
  end.

(* ===================================================================== *)
(** * Bookshelf objects and [fetchCursorPage] *)
(* ===================================================================== *)

(** A Bookshelf model or collection is known here by its identity and by
    the query builder it owns ([_knex]); a store gives the builder of
    each object that has one.  [self.query()] and the [qb] handed to the
    callback of [pager.query(callback)] are that builder itself, not a
    copy: when [self] and [pager] are one object, what the callback does
    to [qb] is done to the builder [self.query()] returns. *)
Definition object := nat.
Abbreviation store := (gmap object builder).

(** [obj.query()]: the builder of [obj], created blank when [obj] has
    none. *)
Definition query (obj : object) : M store builder :=
  λ σ, match σ !! obj with
       | Some qb => (inr qb, σ)
       | None => (inr blank, <[obj := blank]> σ)
       end.

(** Running builder code on the builder owned by [obj]. *)
Definition on {A} (obj : object) (m : M builder A) : M store A :=
  λ σ, let '(r, qb) := m (default blank (σ !! obj)) in
       (r, <[obj := qb]> σ).

(** lodash's [assign(qb, source)] on the builder owned by [obj]: every
    field of the source overwrites the one of [qb]. *)
Definition assign (obj : object) (source : builder) : M store unit :=
  on obj (modify (λ _, source)).

(** What [fetchCursorPage] receives as [collection]: a collection, or the
    arrow function the model entry point passes. *)
Inductive collection_argument :=
| a_collection (pager : object)
| an_arrow_function.

Record model_class := {
  tableName : string;
  idAttribute : option string
}.

(** [Model.prototype.idAttribute ? Model.prototype.idAttribute : 'id'];
    [None] is an [undefined] or [null] attribute, and the empty string is
    falsy like them. *)
Definition idAttribute_or_id (Model : model_class) : string :=
  match idAttribute Model with
  | Some attribute => if truthy (VString attribute) then attribute else "id"
  | None => "id"
  end.

Record context := {
  self : object;
  collection : collection_argument;
  Model : model_class
}.

Record pagination_data := {
  rowCount : option number;
  limit : number;
  pageCount : number;
  pagination_cursors : cursors
}.

Record page := {
  models : list model;
  pagination : pagination_data
}.

(** What has been handed to the database when the synchronous part of
    [fetchCursorPage] returns: the page query with the options passed to
    [fetch], the closure [extractCursors] (its [sortedColumns]), the
    count query, and the [_limit] both callbacks close over. *)
Record requests := {
  page_query : builder;
  page_fetchOptions : gmap string value;
  page_sortedColumns : list SortColumn;
  counter_query : builder;
  requests_limit : number
}.

(** [const { limit, ...fetchOptions } = options] and
    [const _limit = ensurePositiveIntWithDefault(limit, DEFAULT_LIMIT)]:
    a missing key reads as [undefined]. *)
Definition _limit (options : gmap string value) : number :=
  let limit := default VUndefined (options !! "limit") in
  ensurePositiveIntWithDefault limit DEFAULT_LIMIT.

Section fetchCursorPage.

(** Bookshelf starts a fetch by taking the object's builder; its
    [resetQuery] then leaves the object without one, so that a later
    [query()] starts from a blank builder.  Nothing below relies on which
    of the two a [fetch] does. *)
Variable resetQuery : bool.

(** The database: what [fetch] and [fetchAll] resolve to for a query. *)
Variable db_fetch : gmap string value → builder → list model.
Variable db_fetchAll : builder → option (list model).

(** The start of [obj.fetch()] and [obj.fetchAll()]: the query that is
    sent. *)
Definition sync (obj : object) : M store builder :=
  qb ← query obj;
  (if resetQuery then modify (delete obj) else mret ());;
  mret qb.

(** [paginate()] up to the call of [fetch]: the callback given to
    [pager.query] runs on the builder of [pager]. *)
Definition paginate (ctx : context) (cursor : option Cursor)
    (tableName idAttribute : string) (_limit : number)
  : M store (builder * list SortColumn) :=
  match collection ctx with
  | an_arrow_function => throw TypeError
  | a_collection pager =>
      query pager;;
      base ← query (self ctx);
      assign pager (clone base);;
      extractCursors ← on pager (applyCursor cursor tableName idAttribute);
      on pager (modify (Knex.limit _limit));;
      sent ← sync pager;
      mret (sent, extractCursors)
  end.

(** [count(self, Model, tableName, idAttribute, limit)] up to the call of
    [fetchAll].  [counter] is a new object that nothing else refers to;
    its builder is the local [qb]. *)
Definition count (ctx : context) (tableName idAttribute : string)
  : M store builder :=
  base ← query (self ctx);
  mret (count_query (clone base) tableName idAttribute).

(** The synchronous part of [fetchCursorPage]: [paginate()] is called
    before [count(...)], and everything that can throw does so here. *)
Definition dispatch (ctx : context) (options : gmap string value)
  : M store requests :=
  let fetchOptions := delete "limit" options in
  cursor ← lift (cursor_of options);
  let _limit := _limit options in
  let tableName := tableName (Model ctx) in
  let idAttribute := idAttribute_or_id (Model ctx) in
  '(sent, extractCursors) ←
    paginate ctx cursor tableName idAttribute _limit;
  counting ← count ctx tableName idAttribute;
  mret {| page_query := sent;
          page_fetchOptions := fetchOptions;
          page_sortedColumns := extractCursors;
          counter_query := counting;
          requests_limit := _limit |}.

(** The [then] callbacks, once both queries have resolved. *)
Definition settle (r : requests) (coll : list model)
    (result : option (list model)) : page :=
  let cursors := extractCursors (page_sortedColumns r) coll in
  let metadata := count_metadata (requests_limit r) result in
  let pageCount :=
    ceil_div (metadata_rowCount metadata) (requests_limit r) in
  {| models := coll;
     pagination := {| rowCount := metadata_rowCount metadata;
                      limit := metadata_limit metadata;
                      pageCount := pageCount;
                      pagination_cursors := cursors |} |}.

Definition fetchCursorPage (ctx : context) (options : gmap string value)
  : M store page :=
  r ← dispatch ctx options;
  mret (settle r (db_fetch (page_fetchOptions r) (page_query r))
                 (db_fetchAll (counter_query r))).

(** [Model.prototype.fetchCursorPage]; the static [Model.fetchCursorPage]
    calls it on a newly forged model. *)
Definition modelFetchCursorPage (this : object) (constructor : model_class)
  : gmap string value → M store page :=
  fetchCursorPage {| self := this;
                     Model := constructor;
                     collection := an_arrow_function |}.

(** [Collection.prototype.fetchCursorPage] *)
Definition collectionFetchCursorPage (this : object) (model : model_class)
  : gmap string value → M store page :=
  fetchCursorPage {| self := this;
                     Model := model;
                     collection := a_collection this |}.

End fetchCursorPage.

(* ===================================================================== *)
(** * The keyset predicate, as the specification words it *)
(* ===================================================================== *)

(** The comparison of one column, by the table of the two flips: [>] for
    an [after] cursor on an ascending column, [<] when exactly one of
    "the cursor is [before]" and "the column is [DESC]" holds, [>] again
    when both do. *)
Definition keyset_sign (t : cursorType) (d : option string) : string :=
  match t, bool_decide (d = Some "DESC") with
  | After, false => ">"
  | After, true => "<"
  | Before, false => "<"
  | Before, true => ">"
  end.

(** The term of position [i]: the columns before [c_i] equal their cursor
    values and [c_i] compares to its own by the sign. *)
Definition keyset_term (cursor : Cursor) (cols : list SortColumn)
    (i : nat) (c_i : SortColumn) : statement :=
  let v j := List.nth j (columnValues cursor) VUndefined in
  whereWrapped
    (imap (λ j c_j, whereBasic (name c_j) "=" (v j) And) (take i cols)
     ++ [whereBasic (name c_i)
                    (keyset_sign (type cursor) (direction c_i)) (v i) And])
    Or.

(** The disjunction of the terms of positions [0 .. n-1]. *)
Definition keyset_predicate (cursor : Cursor) (cols : list SortColumn)
  : list statement :=
  imap (keyset_term cursor cols) cols.

(** A name without a dot: it cannot be read as [table.column]. *)
Fixpoint has_dot (s : string) : bool :=
  match s with
  | EmptyString => false
  | String c rest => Ascii.eqb c "." || has_dot rest
  end.

Definition dotless (s : string) : Prop := has_dot s = false.

(* ===================================================================== *)
(** * Sample queries, options and databases *)
(* ===================================================================== *)

Module Sample.

Definition cars : model_class :=
  {| tableName := "cars"; idAttribute := None |}.

(** [qb.where('x', '=', 1)] *)
Definition filtered : builder :=
  Builder [whereBasic "x" "=" (VNumber (Int 1)) And] None.

(** [orderBy('cars.colA', 'ASC')] then [orderBy('colB', 'DESC')] on it *)
Definition sorted : builder :=
  Builder [whereBasic "x" "=" (VNumber (Int 1)) And;
           orderByBasic "cars.colA" (Some "ASC");
           orderByBasic "colB" (Some "DESC")] None.

(** [orderBy('manufacturers.name', 'ASC')] on a joined query *)
Definition joined : builder :=
  Builder [join "inner" "manufacturers" "cars.manufacturer_id"
                "manufacturers.id";
           orderByBasic "manufacturers.name" (Some "ASC")] None.


Definition after_5 : Cursor :=
  {| type := After; columnValues := [VNumber (Int 5)] |}.

(** [{ after: [5] }] *)
Definition options_after_5 : gmap string value :=
  {[ "after" := VArray [VNumber (Int 5)] ]}.

(** [{ after: [1], before: [2] }] *)
Definition options_after_and_before : gmap string value :=
  <[ "after" := VArray [VNumber (Int 1)] ]>
    {[ "before" := VArray [VNumber (Int 2)] ]}.

(** [{ before: 'x' }] *)
Definition options_before_string : gmap string value :=
  {[ "before" := VString "x" ]}.


(** The collection [0] holds the filtered query. *)
Definition one_collection : store := {[ 0%nat := filtered ]}.

(** Two records with ids 6 and 7, whatever the query. *)
Definition record (id : Z) (colour : string) : model :=
  <[ "id" := VNumber (Int id) ]> {[ "colour" := VString colour ]}.
Definition two_rows (_ : gmap string value) (_ : builder) : list model :=
  [record 6 "red"; record 7 "blue"].

(** A count answered by one row with one column, by no row, and by one
    row with two columns. *)
Definition count_53 (_ : builder) : option (list model) :=
  Some [ {[ "count(distinct cars.id)" := VString "53" ]} ].
Definition count_no_row (_ : builder) : option (list model) :=
  Some [].
Definition count_two_columns (_ : builder) : option (list model) :=
  Some [ <[ "count" := VNumber (Int 53) ]> {[ "extra" := VNull ]} ].

End Sample.

(* ===================================================================== *)
(** * The static entry point *)
(* ===================================================================== *)

(** [Model.forge()]: a new object, which owns no builder yet.  An object
    is only ever used to find its builder, so any identity without a
    builder stands for the new one. *)
Definition forge : M store object := λ σ, (inr (fresh (dom σ)), σ).

(** [Model.fetchCursorPage]: [this.forge().fetchCursorPage(...args)] *)
Definition staticModelFetchCursorPage (resetQuery : bool)
    (db_fetch : gmap string value → builder → list model)
    (db_fetchAll : builder → option (list model))
    (this : model_class) (options : gmap string value) : M store page :=
  forged ← forge;
  modelFetchCursorPage resetQuery db_fetch db_fetchAll forged this options.

(* ===================================================================== *)
(** * The rows a builder's where statements select *)
(* ===================================================================== *)

Section selection.

(** What [column operator value] means on the value a row has in the
    column, and what a raw fragment means on a row, belong to the
    database: both are left open. *)
Variable compare : string → value → value → bool.
Variable raw : string → (string → value) → bool.

(** knex writes the where statements one after the other, each preceded
    by its [bool] except the first; in SQL [AND] binds tighter than [OR].
    [joined cur rest] is the value of the conjunction in progress [cur]
    followed by [rest]. *)
Fixpoint joined (cur : bool) (rest : list (boolop * bool)) : bool :=
  match rest with
  | [] => cur
  | (And, p) :: rest => joined (cur && p) rest
  | (Or, p) :: rest => cur || joined p rest
  end.

(** No statement compiles to no condition at all. *)
Definition conditions (l : list (boolop * bool)) : option bool :=
  match l with
  | [] => None
  | (_, p) :: rest => Some (joined p rest)
  end.

Definition statement_bool (s : statement) : boolop :=
  match s with
  | whereBasic _ _ _ bool | whereWrapped _ bool | whereRaw _ bool => bool
  | _ => And
  end.

(** The condition one statement compiles to in the where clause, on a
    row: none for a statement of another grouping, and none for a wrapped
    group whose callback added no where statement, which knex leaves
    out. *)
Fixpoint holds (row : string → value) (s : statement) : option bool :=
  match s with
  | whereBasic column operator value _ =>
      Some (compare operator (row column) value)
  | whereWrapped body _ =>
      conditions
        ((fix compiled (l : list statement) : list (boolop * bool) :=
            match l with
            | [] => []
            | s :: l =>
                match holds row s with
                | Some p => (statement_bool s, p) :: compiled l
                | None => compiled l
                end
            end) body)
  | whereRaw sql _ => Some (raw sql row)
  | _ => None
  end.

(** The conditions of a list of statements, each with its [bool]. *)
Fixpoint compiled (row : string → value) (l : list statement)
  : list (boolop * bool) :=
  match l with
  | [] => []
  | s :: l =>
      match holds row s with
      | Some p => (statement_bool s, p) :: compiled row l
      | None => compiled row l
      end
  end.

(** The where clause of a builder; without one every row is selected. *)
Definition where_clause (row : string → value) (qb : builder)
  : option bool :=
  conditions (compiled row (_statements qb)).

Definition selects (row : string → value) (qb : builder) : bool :=
  default true (where_clause row qb).

(** The row lies strictly beyond the cursor in the order of the sort
    columns: it passes the comparison on the first column, or equals the
    cursor there and lies beyond it on the columns that follow. *)
Fixpoint beyond (t : cursorType) (cols : list SortColumn)
    (values : list value) (row : string → value) : bool :=
  match cols, values with
  | c :: cols, v :: values =>
      compare (keyset_sign t (direction c)) (row (name c)) v
      || compare "=" (row (name c)) v && beyond t cols values row
  | _, _ => false
  end.

End selection.

(** A database that compares numbers, and a row of it. *)
Module Rows.

Definition by_number (operator : string) (a b : value) : bool :=
  match a, b with
  | VNumber (Int x), VNumber (Int y) =>
      if String.eqb operator "=" then (x =? y)%Z
      else if String.eqb operator ">" then (y <? x)%Z
      else if String.eqb operator "<" then (x <? y)%Z
      else false
  | _, _ => false
  end.

Definition no_raw (_ : string) (_ : string → value) : bool := true.

(** The row with [id] 7 and [x] 2. *)
Definition row_7 (column : string) : value :=
  if String.eqb column "id" then VNumber (Int 7)
  else if String.eqb column "x" then VNumber (Int 2)
  else VUndefined.

(** The row with [id] 3 and [x] 1. *)
Definition row_3 (column : string) : value :=
  if String.eqb column "id" then VNumber (Int 3)
  else if String.eqb column "x" then VNumber (Int 1)
  else VUndefined.

End Rows.

(* ===================================================================== *)
(** * Properties of the built-ins *)
(* ===================================================================== *)

Section builtins.










End builtins.

(* ===================================================================== *)
(** * Properties of [split] and of the sort columns *)
(* ===================================================================== *)

Section sortedColumns_facts.

Lemma dotless_cons c s :
  dotless (String c s) ↔ c ≠ "."%char ∧ dotless s.
Proof.
  unfold dotless. cbn [has_dot].
  by rewrite orb_false_iff, Ascii.eqb_neq.
Qed.


(** A dotless name is not of the form [s1.s2]. *)
Lemma dotless_not_qualified s s1 s2 : dotless s → s ≠ s1 ++ "." ++ s2.
Proof.
  intros Hs ->. induction s1 as [|c s1 IH].
  - by apply dotless_cons in Hs as [Hc _].
  - apply IH. by apply dotless_cons in Hs as [_ Hs].
Qed.

Lemma split_nonempty sep s : split sep s ≠ [].
Proof.
  destruct s as [|c s]; cbn; [done|].
  destruct (Ascii.eqb c sep); [done|]. by destruct (split sep s).
Qed.


(** The first part of [t.r] is [t]. *)
Lemma split_qualified t r :
  dotless t → split "." (t ++ "." ++ r) = t :: split "." r.
Proof.
  induction t as [|c t IH]; [done|].
  intros [Hc Ht]%dotless_cons.
  change (String c t ++ "." ++ r) with (String c (t ++ "." ++ r)).
  cbn [split]. apply Ascii.eqb_neq in Hc as ->.
  by rewrite IH.
Qed.




(** A column qualified with [t] passes exactly when [t] is the main
    table; its name is then the part between the first two dots. *)
Lemma sortedColumn_qualified mainTableName t r direction :
  dotless t →
  sortedColumn mainTableName (orderByBasic (t ++ "." ++ r) direction)
  = if bool_decide (t ≠ mainTableName) then inl UnsupportedSortTarget
    else inr {| name := List.hd "" (split "." r); direction := direction |}.
Proof.
  intros H. cbn. rewrite split_qualified by done. cbn.
  destruct (split "." r) as [|colName parts] eqn:Hr;
    [by apply split_nonempty in Hr | done].
Qed.


Lemma map_result_length {A B} (f : A → result B) l ys :
  map_result f l = inr ys → length ys = length l.
Proof.
  revert ys. induction l as [|x l IH]; intros ys; cbn.
  - by intros [= <-].
  - unfold mbind, result_bind, mret, result_ret.
    destruct (f x) as [e|y]; [done|].
    destruct (map_result f l) as [e|ys']; [done|].
    intros [= <-]. cbn. f_equal. by apply IH.
Qed.



Lemma sortedColumns_length mainTableName qb cols :
  sortedColumns mainTableName qb = inr cols →
  length cols = length (List.filter is_orderByBasic (_statements qb)).
Proof. apply map_result_length. Qed.


End sortedColumns_facts.

(* ===================================================================== *)
(** * Properties of [buildWhere] and [applyCursor] *)
(* ===================================================================== *)

Section applyCursor_facts.

(** The two flips of the source give the sign of the table. *)
Lemma operator_of_sign_of t d : operator_of (sign_of t d) = keyset_sign t d.
Proof.
  unfold sign_of, keyset_sign.
  by destruct t, (bool_decide (d = Some "DESC")).
Qed.

(** The [forEach] over the visited columns, started at index [k]. *)
Lemma andWhere_fold (values : list value) (visitedCols : list SortColumn)
    (k : nat) (this : builder) :
  List.fold_left
    (λ this '(idx, visitedCol),
       andWhere (name visitedCol) "=" (List.nth idx values VUndefined) this)
    (imap (λ idx visitedCol, (k + idx, visitedCol)%nat) visitedCols) this
  = Builder
      (_statements this ++
       imap (λ j c_j, whereBasic (name c_j) "="
                        (List.nth (k + j) values VUndefined) And)
            visitedCols)
      (_single_limit this).
Proof.
  revert k this.
  induction visitedCols as [|c visitedCols IH]; intros k this.
  - destruct this; cbn. by rewrite app_nil_r.
  - cbn [imap List.fold_left].
    rewrite (imap_ext _ (λ idx visitedCol, (S k + idx, visitedCol)%nat)
               visitedCols) by (intros; cbn; f_equal; lia).
    rewrite IH. cbn. rewrite <- app_assoc. cbn.
    do 3 f_equal. apply imap_ext. intros; cbn. do 2 f_equal. lia.
Qed.

Lemma whereGroup_run cursor visitedCols currentCol :
  _statements (whereGroup cursor visitedCols currentCol blank)
  = (imap (λ j c_j, whereBasic (name c_j) "="
                      (List.nth j (columnValues cursor) VUndefined) And)
          visitedCols
     ++ [whereBasic (name currentCol)
           (keyset_sign (type cursor) (direction currentCol))
           (List.nth (length visitedCols) (columnValues cursor) VUndefined)
           And])%list.
Proof.
  unfold whereGroup.
  pose proof (andWhere_fold (columnValues cursor) visitedCols 0 blank) as H.
  cbn [Nat.add] in H. rewrite H.
  cbn. by rewrite operator_of_sign_of.
Qed.

(** The recursion of [buildWhere], with its accumulator, adds the terms
    of the positions that remain. *)
Lemma buildWhere_run cursor cols visitedCols qb :
  cols ≠ [] →
  buildWhere cursor cols visitedCols qb
  = (inr (),
     Builder
       (_statements qb ++
        imap (λ i c_i, keyset_term cursor (visitedCols ++ cols)
                                   (length visitedCols + i) c_i) cols)
       (_single_limit qb)).
Proof.
  revert visitedCols qb.
  induction cols as [|currentCol remainingCols IH]; intros visitedCols qb Hne;
    [done|].
  cbn [buildWhere].
  unfold mbind, M_bind, modify, orWhere, push at 1.
  rewrite whereGroup_run.
  destruct remainingCols as [|nextCol remainingCols'].
  - cbn. do 3 f_equal. unfold keyset_term.
    by rewrite Nat.add_0_r, take_app_length.
  - rewrite IH by done.
    cbn [_statements _single_limit].
    rewrite <- app_assoc.
    apply (f_equal (λ l, (inr (), Builder (_statements qb ++ l)
                                          (_single_limit qb)))).
    rewrite (imap_cons _ currentCol). cbn [app].
    apply (f_equal2 cons).
    + unfold keyset_term. by rewrite Nat.add_0_r, take_app_length.
    + apply imap_ext. intros i c _. cbn.
      rewrite <- (app_assoc visitedCols [currentCol]), length_app.
      cbn. f_equal. lia.
Qed.

Lemma orderBy_is_sorted column direction qb :
  length (List.filter is_orderByBasic
            (_statements (orderBy column direction qb))) ≠ 0%nat.
Proof.
  unfold orderBy, push. cbn [_statements].
  rewrite List.filter_app, length_app. cbn [List.filter].
  unfold is_orderByBasic at 2. rewrite bool_decide_eq_true_2 by done.
  cbn. lia.
Qed.

(** On a builder without an [orderByBasic] statement, [applyCursor]
    behaves as on the builder ordered by [table.id]. *)
Lemma applyCursor_unsorted cursor mainTableName idAttribute qb :
  List.filter is_orderByBasic (_statements qb) = [] →
  applyCursor cursor mainTableName idAttribute qb
  = applyCursor cursor mainTableName idAttribute
      (orderBy (mainTableName ++ "." ++ idAttribute) None qb).
Proof.
  intros Hqb.
  pose proof (orderBy_is_sorted (mainTableName ++ "." ++ idAttribute)
                None qb) as Hsorted%Nat.eqb_neq.
  unfold applyCursor, mbind, M_bind, mret, M_ret, get, modify.
  by rewrite Hqb, Hsorted.
Qed.

Lemma applyCursor_sorted_None mainTableName idAttribute qb :
  List.filter is_orderByBasic (_statements qb) ≠ [] →
  applyCursor None mainTableName idAttribute qb
  = (sortedColumns mainTableName qb, qb).
Proof.
  intros Hqb.
  unfold applyCursor, mbind, M_bind, mret, M_ret, get, modify, lift.
  destruct (List.filter is_orderByBasic (_statements qb)); [done|].
  cbn. by destruct (sortedColumns mainTableName qb).
Qed.

Lemma applyCursor_sorted_Some cursor mainTableName idAttribute qb :
  List.filter is_orderByBasic (_statements qb) ≠ [] →
  applyCursor (Some cursor) mainTableName idAttribute qb
  = match sortedColumns mainTableName qb with
    | inl e => (inl e, qb)
    | inr cols =>
        if bool_decide (length cols ≠ length (columnValues cursor))
        then (inl CursorSortMismatch, qb)
        else (inr cols,
              Builder (_statements qb ++ keyset_predicate cursor cols)
                      (_single_limit qb))
    end.
Proof.
  intros Hqb.
  unfold applyCursor, mbind, M_bind, mret, M_ret, get, modify, lift, throw.
  destruct (List.filter is_orderByBasic (_statements qb)) as [|s l] eqn:Hl;
    [done|].
  cbn [length Nat.eqb].
  destruct (sortedColumns mainTableName qb) as [e|cols] eqn:Hcols; [done|].
  case_bool_decide as Hlen; [done|].
  rewrite buildWhere_run; [done|].
  intros ->. apply sortedColumns_length in Hcols. by rewrite Hl in Hcols.
Qed.

Lemma orderBy_filter column direction qb :
  List.filter is_orderByBasic (_statements (orderBy column direction qb))
  ≠ [].
Proof.
  intros H. by eapply orderBy_is_sorted; rewrite H.
Qed.

(** With a cursor, [applyCursor] does what it does without one and then
    either throws or appends the keyset predicate. *)
Lemma applyCursor_Some cursor mainTableName idAttribute qb :
  applyCursor (Some cursor) mainTableName idAttribute qb
  = match applyCursor None mainTableName idAttribute qb with
    | (inl e, qb1) => (inl e, qb1)
    | (inr cols, qb1) =>
        if bool_decide (length cols ≠ length (columnValues cursor))
        then (inl CursorSortMismatch, qb1)
        else (inr cols,
              Builder (_statements qb1 ++ keyset_predicate cursor cols)
                      (_single_limit qb1))
    end.
Proof.
  destruct (List.filter is_orderByBasic (_statements qb)) as [|s l] eqn:Hl.
  - rewrite !(applyCursor_unsorted _ _ _ qb) by done.
    rewrite applyCursor_sorted_Some, applyCursor_sorted_None
      by apply orderBy_filter.
    by destruct (sortedColumns _ _).
  - rewrite applyCursor_sorted_Some, applyCursor_sorted_None
      by by rewrite Hl.
    by destruct (sortedColumns _ _).
Qed.

(** Whatever the cursor, [applyCursor] leaves at least one
    [orderByBasic] statement and touches neither the statements that
    were there nor the limit. *)
Lemma applyCursor_None_run mainTableName idAttribute qb :
  applyCursor None mainTableName idAttribute qb
  = let qb1 :=
      match List.filter is_orderByBasic (_statements qb) with
      | [] => orderBy (mainTableName ++ "." ++ idAttribute) None qb
      | _ => qb
      end in
    (sortedColumns mainTableName qb1, qb1).
Proof.
  destruct (List.filter is_orderByBasic (_statements qb)) as [|s l] eqn:Hl;
    cbn zeta.
  - rewrite applyCursor_unsorted by done.
    apply applyCursor_sorted_None, orderBy_filter.
  - apply applyCursor_sorted_None. by rewrite Hl.
Qed.

End applyCursor_facts.

(* ===================================================================== *)
(** * Properties of the store and of [dispatch] *)
(* ===================================================================== *)

Lemma clone_id qb : clone qb = qb.
Proof. by destruct qb. Qed.

(** [obj.query()] returns the builder of [obj] and leaves it in place. *)
Lemma query_run obj (σ : store) :
  query obj σ
  = (inr (default blank (σ !! obj)), <[obj := default blank (σ !! obj)]> σ).
Proof.
  unfold query.
  destruct (σ !! obj) as [qb|] eqn:H; cbn [default from_option]; [|done].
  by rewrite insert_id.
Qed.

Ltac run_store :=
  repeat first
    [ progress rewrite ?query_run, ?clone_id, ?lookup_insert_eq,
        ?lookup_delete_eq
    | progress cbn [fst snd]
    | match goal with
      | |- context [default ?d (Some ?x)] =>
          change (default d (Some x)) with x
      | |- context [default ?d None] => change (default d None) with d
      end
    | rewrite lookup_insert_ne by done
    | rewrite lookup_delete_ne by done ].

Ltac unfold_dispatch :=
  unfold dispatch, paginate, count, sync, assign, on, lift, modify, throw;
  cbn [self collection Model];
  unfold mbind, mret, M_bind, M_ret.

Section dispatch_facts.

Context (resetQuery : bool).

(** A cursor that does not decode ends the call before any builder is
    touched. *)
Lemma dispatch_invalid_cursor ctx options σ e :
  cursor_of options = inl e →
  dispatch resetQuery ctx options σ = (inl e, σ).
Proof.
  intros Hcursor. unfold dispatch, lift, mbind, M_bind. by rewrite Hcursor.
Qed.

(** Through the model entry point, [pager] is an arrow function and
    [pager.query] is not callable. *)
Lemma dispatch_arrow_function self0 M options σ cursor :
  cursor_of options = inr cursor →
  dispatch resetQuery
    {| self := self0; collection := an_arrow_function; Model := M |}
    options σ
  = (inl TypeError, σ).
Proof. intros Hcursor. unfold_dispatch. by rewrite Hcursor. Qed.

Lemma modelFetchCursorPage_throws db_fetch db_fetchAll this M options σ
    cursor :
  cursor_of options = inr cursor →
  fst (modelFetchCursorPage resetQuery db_fetch db_fetchAll this M options σ)
  = inl TypeError.
Proof.
  intros Hcursor.
  unfold modelFetchCursorPage, fetchCursorPage, mbind, M_bind.
  by rewrite dispatch_arrow_function with (cursor := cursor).
Qed.

(** What has been sent when the call goes through a collection.  The page
    query is the builder of [self] after [applyCursor] and [limit]; the
    count query is built from whatever [self.query()] returns once the
    page query has been sent. *)
Lemma dispatch_collection self0 pager M options σ cursor cols qb :
  cursor_of options = inr cursor →
  applyCursor cursor (tableName M) (idAttribute_or_id M)
              (default blank (σ !! self0)) = (inr cols, qb) →
  fst (dispatch resetQuery
         {| self := self0; collection := a_collection pager; Model := M |}
         options σ)
  = inr {| page_query := Knex.limit (_limit options) qb;
           page_fetchOptions := delete "limit" options;
           page_sortedColumns := cols;
           counter_query :=
             count_query
               (if decide (pager = self0)
                then if resetQuery then blank
                     else Knex.limit (_limit options) qb
                else default blank (σ !! self0))
               (tableName M) (idAttribute_or_id M);
           requests_limit := _limit options |}.
Proof.
  intros Hcursor Happly. unfold_dispatch.
  rewrite Hcursor.
  destruct (decide (pager = self0)) as [->|Hne];
    run_store; rewrite Happly; run_store;
    destruct resetQuery; by run_store.
Qed.

Lemma dispatch_collection_throws self0 pager M options σ cursor e qb :
  cursor_of options = inr cursor →
  applyCursor cursor (tableName M) (idAttribute_or_id M)
              (default blank (σ !! self0)) = (inl e, qb) →
  fst (dispatch resetQuery
         {| self := self0; collection := a_collection pager; Model := M |}
         options σ)
  = inl e.
Proof.
  intros Hcursor Happly. unfold_dispatch. rewrite Hcursor.
  destruct (decide (pager = self0)) as [->|Hne];
    run_store; by rewrite Happly.
Qed.

(** The exceptions of the synchronous part, and where each comes from. *)
Lemma dispatch_throws ctx options σ e :
  fst (dispatch resetQuery ctx options σ) = inl e ↔
  cursor_of options = inl e ∨
  ∃ cursor, cursor_of options = inr cursor ∧
    match collection ctx with
    | an_arrow_function => e = TypeError
    | a_collection _ =>
        fst (applyCursor cursor (tableName (Model ctx))
               (idAttribute_or_id (Model ctx))
               (default blank (σ !! self ctx))) = inl e
    end.
Proof.
  destruct ctx as [self0 [pager|] M]; cbn [collection self Model];
    destruct (cursor_of options) as [e'|cursor] eqn:Hcursor.
  - rewrite (dispatch_invalid_cursor _ _ _ e') by done. cbn. split.
    + intros [= ->]. by left.
    + by intros [[= ->]|(? & [= ] & _)].
  - destruct (applyCursor cursor (tableName M) (idAttribute_or_id M)
                (default blank (σ !! self0))) as [[e'|cols] qb] eqn:Happly.
    + erewrite dispatch_collection_throws by done. cbn. split.
      * intros [= ->]. right. exists cursor. by rewrite Happly.
      * intros [[= ]|(? & [= <-] & H)]. rewrite Happly in H.
        by injection H as ->.
    + erewrite dispatch_collection by done. split; [done|].
      intros [[= ]|(? & [= <-] & H)]. by rewrite Happly in H.
  - rewrite (dispatch_invalid_cursor _ _ _ e') by done. cbn. split.
    + intros [= ->]. by left.
    + by intros [[= ->]|(? & [= ] & _)].
  - rewrite dispatch_arrow_function with (cursor := cursor) by done. cbn.
    split.
    + intros [= <-]. right. by exists cursor.
    + by intros [[= ]|(? & _ & ->)].
Qed.


(** When the pager is another object than [self], the count query is
    the count of the query [self] holds, whatever the options. *)
Lemma dispatch_counts_base self0 pager M options σ r :
  pager ≠ self0 →
  fst (dispatch resetQuery
         {| self := self0; collection := a_collection pager; Model := M |}
         options σ) = inr r →
  counter_query r
  = count_query (default blank (σ !! self0))
                (tableName M) (idAttribute_or_id M).
Proof.
  intros Hne.
  destruct (cursor_of options) as [e|cursor] eqn:Hcursor;
    [by rewrite (dispatch_invalid_cursor _ _ _ e)|].
  destruct (applyCursor cursor (tableName M) (idAttribute_or_id M)
              (default blank (σ !! self0))) as [[e|cols] qb] eqn:Happly.
  - by erewrite dispatch_collection_throws.
  - erewrite dispatch_collection by done. intros [= <-].
    cbn [counter_query]. by rewrite decide_False.
Qed.

(** Through [Collection.prototype.fetchCursorPage] the pager is [self]:
    the count query is the count of the page query that was just built
    on the builder of [self], or of a blank builder when the fetch of the
    page has reset it. *)
Lemma dispatch_collection_counts_page_query this M options σ r :
  fst (dispatch resetQuery
         {| self := this; collection := a_collection this; Model := M |}
         options σ) = inr r →
  counter_query r
  = count_query (if resetQuery then blank else page_query r)
                (tableName M) (idAttribute_or_id M).
Proof.
  destruct (cursor_of options) as [e|cursor] eqn:Hcursor;
    [by rewrite (dispatch_invalid_cursor _ _ _ e)|].
  destruct (applyCursor cursor (tableName M) (idAttribute_or_id M)
              (default blank (σ !! this))) as [[e|cols] qb] eqn:Happly.
  - by erewrite dispatch_collection_throws.
  - erewrite dispatch_collection by done. intros [= <-].
    cbn [counter_query page_query]. by rewrite decide_True.
Qed.

End dispatch_facts.

(* ===================================================================== *)
(** * Properties of the count query *)
(* ===================================================================== *)

Section count_facts.

Lemma count_query_statements base tableName idAttribute :
  _statements (count_query base tableName idAttribute)
  = (List.filter (λ s, negb (notNeeded s)) (_statements base)
     ++ [aggregate "count" (tableName ++ "." ++ idAttribute) true])%list.
Proof. done. Qed.

(** No ordering, grouping or select-list statement of the base survives;
    the only [columns] statement left is the aggregate. *)
Lemma count_query_stripped base tableName idAttribute s :
  s ∈ _statements (count_query base tableName idAttribute) →
  statement_grouping s ≠ "order" ∧ statement_grouping s ≠ "group" ∧
  (statement_grouping s = "columns" →
   s = aggregate "count" (tableName ++ "." ++ idAttribute) true).
Proof.
  rewrite count_query_statements.
  intros [Hs| ->%list_elem_of_singleton]%elem_of_app; [|done].
  apply list_elem_of_In, List.filter_In in Hs as [_ Hs].
  by destruct s.
Qed.

(** Every other statement of the base is kept, in its place. *)
Lemma count_query_keeps base tableName idAttribute s :
  s ∈ _statements base →
  statement_grouping s ∉ ["order"; "group"; "columns"] →
  s ∈ _statements (count_query base tableName idAttribute).
Proof.
  intros Hs Hgrouping. rewrite count_query_statements.
  apply elem_of_app. left.
  apply list_elem_of_In, List.filter_In. split; [by apply list_elem_of_In|].
  destruct s; try done; exfalso; apply Hgrouping; cbn; set_solver.
Qed.

(** Reading the row of a count. *)
Lemma count_metadata_one_row limit key val :
  count_metadata limit (Some [ {[ key := val ]} ])
  = Metadata limit (Some (parseInt val)).
Proof.
  unfold count_metadata, get_attribute.
  by rewrite map_to_list_singleton, lookup_singleton_eq.
Qed.

Lemma count_metadata_malformed limit result :
  (∀ m, result = Some [m] → size m ≠ 1%nat) →
  count_metadata limit result = Metadata limit None.
Proof.
  intros Hresult. unfold count_metadata.
  destruct result as [[|m [|m' result]]|]; try done.
  destruct (map_to_list m) as [|[key val] [|kv l]] eqn:Hm; try done.
  destruct (Hresult m eq_refl).
  by rewrite <- length_map_to_list, Hm.
Qed.


End count_facts.

(* ===================================================================== *)
(** * The claims *)
(* ===================================================================== *)

(** ** The keyset predicate *)



(** ** Decoding the cursor *)

(** C2, as the code has it.  Decoding throws exactly when [after] is
    present and is not an array, or [after] is absent and [before] is
    present and is not an array; what is thrown is the "is not an array"
    error of the offending value.  An array under [after] gives an
    [after] cursor with its elements whether or not [before] is present
    too; without [after], an array under [before] gives a [before]
    cursor; without both there is no cursor. *)
Theorem cursor_of_outcome (options : gmap string value) :
  ((∃ e, cursor_of options = inl e) ↔
     (∃ val, options !! "after" = Some val ∧ isArray val = false) ∨
     (options !! "after" = None ∧
      ∃ val, options !! "before" = Some val ∧ isArray val = false))
  ∧ (∀ e, cursor_of options = inl e →
       ∃ val, e = InvalidCursorInput val ∧
              (options !! "after" = Some val ∨ options !! "before" = Some val))
  ∧ (∀ values, options !! "after" = Some (VArray values) →
       cursor_of options
       = inr (Some {| type := After; columnValues := values |}))
  ∧ (∀ values, options !! "after" = None →
       options !! "before" = Some (VArray values) →
       cursor_of options
       = inr (Some {| type := Before; columnValues := values |}))
  ∧ (options !! "after" = None → options !! "before" = None →
       cursor_of options = inr None).
Proof.
  unfold cursor_of, ensureArray, mbind, result_bind, mret, result_ret.
  destruct (options !! "after") as [after|];
    [destruct (isArray after) eqn:Hafter
    |destruct (options !! "before") as [before|];
       [destruct (isArray before) eqn:Hbefore|]];
    cbn [negb]; (split; [split|repeat split]); try done.
  all: try by intros [e [= ]].
  all: try by intros [(val & [= ] & _)|[_ (val & [= ] & _)]].
  all: try (intros [(val & [= <-] & Hval)|[[= ] _]]; congruence).
  all: try (intros [(val & [= ] & _)|[_ (val & [= <-] & Hval)]]; congruence).
  all: try by intros values [= ->].
  all: try by intros values _ [= ->].
  all: try (intros e [= <-]; eexists; split; [done | by (left + right)]).
  all: try (intros _; left; by eexists).
  all: try (intros _; right; split; [done | by eexists]).
  all: intros _; by eexists.
Qed.

Lemma cursor_of_outcome_witness :
  Sample.options_after_and_before !! "after"
  = Some (VArray [VNumber (Int 1)])
  ∧ cursor_of Sample.options_after_and_before
    = inr (Some {| type := After; columnValues := [VNumber (Int 1)] |}).
Proof.
  split; [reflexivity|].
  apply (proj1 (proj2 (proj2 (cursor_of_outcome
                                Sample.options_after_and_before)))).
  reflexivity.
Defined.

(** C2 as stated does not hold: with both [after] and [before] present,
    each an array, decoding does not throw. *)
Lemma cursor_of_after_and_before :
  ¬ ((∃ e, cursor_of Sample.options_after_and_before = inl e) ↔
       (∃ val, Sample.options_after_and_before !! "after" = Some val ∧
               isArray val = false) ∨
       (∃ val, Sample.options_after_and_before !! "before" = Some val ∧
               isArray val = false) ∨
       (is_Some (Sample.options_after_and_before !! "after") ∧
        is_Some (Sample.options_after_and_before !! "before"))).
Proof.
  intros [_ Hthrows].
  destruct Hthrows as [e He]; [|done].
  right. right. split; by eexists.
Qed.

(** ** Reading the count *)

(** C3, as the code has it.  A count result that is not exactly one row
    with exactly one column raises nothing: [count] resolves to metadata
    that carry the limit and no [rowCount], and the page is returned with
    [rowCount] absent and [pageCount] [NaN].  One row with one column
    gives the [parseInt] of that column.  Whether [fetchCursorPage]
    throws never depends on what the count query returned. *)
Theorem count_metadata_never_throws :
  (∀ limit result,
     (∀ m, result = Some [m] → size m ≠ 1%nat) →
     count_metadata limit result = Metadata limit None)
  ∧ (∀ limit key val,
       count_metadata limit (Some [ {[ key := val ]} ])
       = Metadata limit (Some (parseInt val)))
  ∧ (∀ r coll result,
       (∀ m, result = Some [m] → size m ≠ 1%nat) →
       pagination (settle r coll result)
       = {| rowCount := None;
            limit := requests_limit r;
            pageCount := NaN;
            pagination_cursors := extractCursors (page_sortedColumns r) coll |})
  ∧ (∀ resetQuery db_fetch db_fetchAll ctx options σ e,
       fst (fetchCursorPage resetQuery db_fetch db_fetchAll ctx options σ)
       = inl e
       ↔ fst (dispatch resetQuery ctx options σ) = inl e).
Proof.
  split; [exact count_metadata_malformed|].
  split; [exact count_metadata_one_row|].
  split.
  - intros r coll result Hresult. unfold settle.
    by rewrite count_metadata_malformed.
  - intros resetQuery db_fetch db_fetchAll ctx options σ e.
    unfold fetchCursorPage, mbind, M_bind, mret, M_ret.
    destruct (dispatch resetQuery ctx options σ) as [[e'|r] σ']; cbn;
      [split; by intros [= ->] | split; intros [= ]].
Qed.

Lemma count_metadata_never_throws_witness :
  (∀ m : model, Some ([] : list model) = Some [m] → size m ≠ 1%nat)
  ∧ count_metadata (Int 10) (Some []) = Metadata (Int 10) None.
Proof.
  assert (∀ m : model, Some ([] : list model) = Some [m] → size m ≠ 1%nat)
    as H by (intros m [= ]).
  split; [exact H|].
  exact (proj1 count_metadata_never_throws (Int 10) (Some []) H).
Defined.

(** C3 as stated does not hold: when the count query returns no row, the
    call returns its page, with its pagination metadata, and raises
    nothing. *)
Lemma count_no_row_returns_metadata :
  Sample.count_no_row blank = Some []
  ∧ match fst (collectionFetchCursorPage true Sample.two_rows
                 Sample.count_no_row 0%nat Sample.cars ∅
                 Sample.one_collection) with
    | inr p =>
        pagination p
        = {| rowCount := None;
             limit := Int 10;
             pageCount := NaN;
             pagination_cursors :=
               {| after := Some [VNumber (Int 7)];
                  before := Some [VNumber (Int 6)] |} |}
    | inl _ => False
    end.
Proof. split; [reflexivity | by vm_compute]. Qed.

(** ** The count query *)

(** C4, at the input where the code departs from it.  Through the
    collection entry point, [self] and [pager] are one object: the page
    query is built on the builder that [self.query()] returns, and the
    count query is made afterwards from what [self.query()] then returns.
    For the collection holding [where x = 1], asked for the page after
    [5]: the count of the base query is [where x = 1] with the aggregate;
    the count query sent carries the cursor predicate and the limit when
    a fetch leaves the builder in place, and is the bare aggregate when a
    fetch resets it. *)
Theorem collection_counter_query :
  count_query Sample.filtered "cars" "id"
  = Builder [whereBasic "x" "=" (VNumber (Int 1)) And;
             aggregate "count" "cars.id" true] None
  ∧ match fst (dispatch false
                 {| self := 0%nat; collection := a_collection 0%nat;
                    Model := Sample.cars |}
                 Sample.options_after_5 Sample.one_collection) with
    | inr r =>
        counter_query r
        = Builder [whereBasic "x" "=" (VNumber (Int 1)) And;
                   whereWrapped [whereBasic "id" ">" (VNumber (Int 5)) And]
                                Or;
                   aggregate "count" "cars.id" true] (Some 10)
    | inl _ => False
    end
  ∧ match fst (dispatch true
                 {| self := 0%nat; collection := a_collection 0%nat;
                    Model := Sample.cars |}
                 Sample.options_after_5 Sample.one_collection) with
    | inr r =>
        counter_query r = Builder [aggregate "count" "cars.id" true] None
    | inl _ => False
    end.
Proof. by vm_compute. Qed.

(** ** Sort normalization *)


Lemma orderBy_filter_unsorted column direction qb :
  List.filter is_orderByBasic (_statements qb) = [] →
  List.filter is_orderByBasic (_statements (orderBy column direction qb))
  = [orderByBasic column direction].
Proof.
  intros Hqb. unfold orderBy, push. cbn [_statements].
  by rewrite List.filter_app, Hqb.
Qed.






(** ** Cursor length *)

(** C7.  With a cursor whose number of values differs from the number of
    sort columns, [applyCursor] throws the mismatch error and leaves the
    builder as sort normalization alone leaves it; with equal numbers the
    keyset predicate is appended; without a cursor the builder is the
    given one, or the given one ordered by [table.identity], and nothing
    else is added. *)
Theorem applyCursor_cursor_length :
  (∀ cursor mainTableName idAttribute qb cols qb1,
     applyCursor None mainTableName idAttribute qb = (inr cols, qb1) →
     length (columnValues cursor) ≠ length cols →
     applyCursor (Some cursor) mainTableName idAttribute qb
     = (inl CursorSortMismatch, qb1))
  ∧ (∀ cursor mainTableName idAttribute qb cols qb1,
       applyCursor None mainTableName idAttribute qb = (inr cols, qb1) →
       length (columnValues cursor) = length cols →
       applyCursor (Some cursor) mainTableName idAttribute qb
       = (inr cols,
          Builder (_statements qb1 ++ keyset_predicate cursor cols)
                  (_single_limit qb1)))
  ∧ (∀ mainTableName idAttribute qb,
       snd (applyCursor None mainTableName idAttribute qb) = qb ∨
       snd (applyCursor None mainTableName idAttribute qb)
       = orderBy (mainTableName ++ "." ++ idAttribute) None qb).
Proof.
  split; [|split].
  - intros cursor mainTableName idAttribute qb cols qb1 Hsorted Hlen.
    rewrite applyCursor_Some, Hsorted.
    by rewrite bool_decide_eq_true_2 by by intros ?.
  - intros cursor mainTableName idAttribute qb cols qb1 Hsorted Hlen.
    rewrite applyCursor_Some, Hsorted.
    by rewrite bool_decide_eq_false_2 by by intros ?.
  - intros mainTableName idAttribute qb. rewrite applyCursor_None_run.
    destruct (List.filter is_orderByBasic (_statements qb)); cbn; eauto.
Qed.

Lemma applyCursor_cursor_length_witness :
  applyCursor None "cars" "id" Sample.sorted
  = (inr [{| name := "colA"; direction := Some "ASC" |};
          {| name := "colB"; direction := Some "DESC" |}], Sample.sorted)
  ∧ length (columnValues Sample.after_5) ≠ 2%nat
  ∧ applyCursor (Some Sample.after_5) "cars" "id" Sample.sorted
    = (inl CursorSortMismatch, Sample.sorted).
Proof.
  split; [reflexivity|]. split; [discriminate|].
  apply (proj1 applyCursor_cursor_length Sample.after_5 "cars" "id"
           Sample.sorted
           [{| name := "colA"; direction := Some "ASC" |};
            {| name := "colB"; direction := Some "DESC" |}]
           Sample.sorted);
    [reflexivity | discriminate].
Defined.

(** ** The cursors of a page *)

Lemma last_cons {A} (x d : A) (l : list A) :
  List.last (x :: l) d = List.last l x.
Proof.
  revert x d. induction l as [|y l IH]; intros x d; [done|].
  change (List.last (x :: y :: l) d) with (List.last (y :: l) d).
  by rewrite !IH.
Qed.

Lemma lookup_last {A} (first : A) (rest : list A) :
  (first :: rest) !! length rest = Some (List.last rest first).
Proof.
  revert first. induction rest as [|x rest IH]; intros first; [done|].
  cbn [length]. by rewrite lookup_cons, IH, last_cons.
Qed.

(** C8.  For a page with a first record, [before] holds the attributes of
    the first record named by the sort columns, in their order, and
    [after] those of the last record; for an empty page there is neither.
    These are the cursors of the page that [fetchCursorPage] returns. *)
Theorem extractCursors_first_and_last :
  (∀ sortedColumns first rest,
     extractCursors sortedColumns (first :: rest)
     = {| after :=
            Some (List.map (λ c, get_attribute (List.last rest first) (name c))
                           sortedColumns);
          before :=
            Some (List.map (λ c, get_attribute first (name c))
                           sortedColumns) |})
  ∧ (∀ sortedColumns,
       extractCursors sortedColumns []
       = {| after := None; before := None |})
  ∧ (∀ r coll result,
       pagination_cursors (pagination (settle r coll result))
       = extractCursors (page_sortedColumns r) coll).
Proof.
  split; [|split]; [|done..].
  intros sortedColumns first rest. unfold extractCursors.
  cbn [length Nat.eqb]. rewrite Nat.sub_succ, Nat.sub_0_r.
  by rewrite lookup_last.
Qed.

(** ** The limit *)









(* ===================================================================== *)
(** * Worked examples *)
(* ===================================================================== *)

(** [{ before: 'x' }] is refused with the message of [ensureArray]. *)
Example before_string_is_not_an_array :
  cursor_of Sample.options_before_string = inl (Error "x is not an array").
Proof. reflexivity. Qed.

(** 53 rows in pages of 15 are 4 pages. *)
Example pageCount_53_by_15 : ceil_div (Some (Int 53)) (Int 15) = Int 4.
Proof. reflexivity. Qed.

(** A page of the collection, counted by one row with one column. *)
Example collection_page_counted :
  match fst (collectionFetchCursorPage true Sample.two_rows Sample.count_53
               0%nat Sample.cars Sample.options_after_5
               Sample.one_collection) with
  | inr p =>
      models p = [Sample.record 6 "red"; Sample.record 7 "blue"]
      ∧ pagination p
        = {| rowCount := Some (Int 53);
             limit := Int 10;
             pageCount := Int 6;
             pagination_cursors :=
               {| after := Some [VNumber (Int 7)];
                  before := Some [VNumber (Int 6)] |} |}
  | inl _ => False
  end.
Proof. by vm_compute. Qed.

(** A count row with two columns gives no [rowCount]. *)
Example two_columns_give_no_rowCount :
  count_metadata (Int 10) (Sample.count_two_columns blank)
  = Metadata (Int 10) None.
Proof. by vm_compute. Qed.

(** The model entry point stops at [pager.query]. *)
Example model_entry_point_throws :
  fst (modelFetchCursorPage true Sample.two_rows Sample.count_53 0%nat
         Sample.cars Sample.options_after_5 Sample.one_collection)
  = inl TypeError.
Proof. reflexivity. Qed.

(* ===================================================================== *)
(** * Further properties of [applyCursor] *)
(* ===================================================================== *)

Section applyCursor_outcomes.

(** The builder [applyCursor] works on once it has made sure there is an
    ordering. *)
Lemma applyCursor_normalized_sorted mainTableName idAttribute qb :
  List.filter is_orderByBasic
    (_statements (snd (applyCursor None mainTableName idAttribute qb)))
  ≠ [].
Proof.
  rewrite applyCursor_None_run. cbn [snd].
  destruct (List.filter is_orderByBasic (_statements qb)) as [|s l] eqn:Hl.
  - apply orderBy_filter.
  - by rewrite Hl.
Qed.

Lemma applyCursor_None_columns mainTableName idAttribute qb cols :
  fst (applyCursor None mainTableName idAttribute qb) = inr cols →
  cols ≠ [].
Proof.
  pose proof (applyCursor_normalized_sorted mainTableName idAttribute qb)
    as Hsorted.
  rewrite applyCursor_None_run in *. cbn [fst snd] in *.
  intros Hcols Hnil. subst cols.
  apply sortedColumns_length in Hcols.
  destruct (List.filter is_orderByBasic (_statements _)); done.
Qed.


Lemma applyCursor_returns_inv cursor mainTableName idAttribute qb cols :
  fst (applyCursor cursor mainTableName idAttribute qb) = inr cols →
  cols ≠ [] ∧
  fst (applyCursor None mainTableName idAttribute qb) = inr cols ∧
  match cursor with
  | Some cursor => length (columnValues cursor) = length cols
  | None => True
  end.
Proof.
  destruct cursor as [cursor|].
  - rewrite applyCursor_Some.
    destruct (applyCursor None mainTableName idAttribute qb)
      as [[e|cols'] qb1] eqn:Hnone; [done|].
    case_bool_decide as Hlen; [done|]. intros [= <-].
    split; [|split; [done|]].
    + eapply applyCursor_None_columns. by rewrite Hnone.
    + destruct (decide (length (columnValues cursor) = length cols')); [done|].
      destruct Hlen. congruence.
  - intros H. split; [by eapply applyCursor_None_columns | done].
Qed.

Lemma Forall_imap {A B} (P : B → Prop) (f : nat → A → B) (l : list A) :
  (∀ i x, P (f i x)) → Forall P (imap f l).
Proof.
  revert f. induction l as [|x l IH]; intros f Hf; cbn; [done|].
  constructor; [apply Hf|]. apply IH. intros i y. apply Hf.
Qed.

End applyCursor_outcomes.



(** X3.  [applyCursor] only appends: the statements of the builder stay
    in place, the limit is not touched, and what is added is the implicit
    ordering on [table.identity] and groups joined by [OR], nothing
    else. *)
Theorem applyCursor_appends cursor mainTableName idAttribute qb :
  ∃ added,
    _statements (snd (applyCursor cursor mainTableName idAttribute qb))
    = (_statements qb ++ added)%list
    ∧ _single_limit (snd (applyCursor cursor mainTableName idAttribute qb))
      = _single_limit qb
    ∧ Forall (λ s, s = orderByBasic (mainTableName ++ "." ++ idAttribute) None
                   ∨ ∃ body, s = whereWrapped body Or) added.
Proof.
  assert (∃ added,
    _statements (snd (applyCursor None mainTableName idAttribute qb))
    = (_statements qb ++ added)%list
    ∧ _single_limit (snd (applyCursor None mainTableName idAttribute qb))
      = _single_limit qb
    ∧ Forall (λ s, s = orderByBasic (mainTableName ++ "." ++ idAttribute) None
                   ∨ ∃ body, s = whereWrapped body Or) added)
    as (added & Hadded & Hlimit & Hall).
  { rewrite applyCursor_None_run. cbn [snd].
    destruct (List.filter is_orderByBasic (_statements qb)).
    - eexists [_]. split; [done|]. split; [done|].
      constructor; [by left | constructor].
    - exists []. by rewrite app_nil_r. }
  destruct cursor as [cursor|]; [|by exists added].
  rewrite applyCursor_Some.
  destruct (applyCursor None mainTableName idAttribute qb)
    as [[e|cols] qb1]; cbn [snd] in *; [by exists added|].
  case_bool_decide; cbn [snd]; [by exists added|].
  exists (added ++ keyset_predicate cursor cols)%list.
  cbn [_statements _single_limit]. rewrite Hadded, app_assoc.
  split; [done|]. split; [done|].
  apply Forall_app. split; [done|].
  apply Forall_imap. intros i c. right. by eexists.
Qed.

(* ===================================================================== *)
(** * Further properties of [fetchCursorPage] *)
(* ===================================================================== *)

Section fetchCursorPage_outcomes.

Context (resetQuery : bool).
Context (db_fetch : gmap string value → builder → list model).
Context (db_fetchAll : builder → option (list model)).

(** The [then] callbacks throw nothing. *)
Lemma fetchCursorPage_throws ctx options σ e :
  fst (fetchCursorPage resetQuery db_fetch db_fetchAll ctx options σ) = inl e
  ↔ fst (dispatch resetQuery ctx options σ) = inl e.
Proof.
  unfold fetchCursorPage, mbind, M_bind, mret, M_ret.
  destruct (dispatch resetQuery ctx options σ) as [[e'|r] σ']; cbn;
    [split; by intros [= ->] | split; intros [= ]].
Qed.

(** A cursor without values never fits the sort columns. *)
Lemma applyCursor_no_values t mainTableName idAttribute qb :
  ∃ e, fst (applyCursor (Some {| type := t; columnValues := [] |})
              mainTableName idAttribute qb) = inl e.
Proof.
  destruct (fst (applyCursor _ mainTableName idAttribute qb))
    as [e|cols] eqn:Hcols; [by exists e|].
  apply applyCursor_returns_inv in Hcols as (Hne & _ & Hlen).
  by destruct cols.
Qed.

End fetchCursorPage_outcomes.

(** X1.  Both model entry points throw on every call and touch no
    builder: the error of the cursor when it does not decode, and
    otherwise the [TypeError] of calling [pager.query] on the arrow
    function that was passed as [collection]. *)
Theorem model_entry_points_throw resetQuery db_fetch db_fetchAll this M
    options σ :
  modelFetchCursorPage resetQuery db_fetch db_fetchAll this M options σ
  = (inl match cursor_of options with
         | inl e => e
         | inr _ => TypeError
         end, σ)
  ∧ staticModelFetchCursorPage resetQuery db_fetch db_fetchAll M options σ
    = (inl match cursor_of options with
           | inl e => e
           | inr _ => TypeError
           end, σ).
Proof.
  assert (∀ this,
    modelFetchCursorPage resetQuery db_fetch db_fetchAll this M options σ
    = (inl match cursor_of options with
           | inl e => e
           | inr _ => TypeError
           end, σ)) as Hmodel.
  { intros this'.
    unfold modelFetchCursorPage, fetchCursorPage, mbind, M_bind.
    destruct (cursor_of options) as [e|cursor] eqn:Hcursor.
    - by rewrite (dispatch_invalid_cursor _ _ _ _ e).
    - by rewrite dispatch_arrow_function with (cursor := cursor). }
  split; [apply Hmodel|].
  unfold staticModelFetchCursorPage, forge, mbind, M_bind. apply Hmodel.
Qed.

(** X4.  An empty array under [after] (or under [before] when there is no
    [after]) decodes to a cursor, and the call then always throws: there
    is always at least one sort column. *)
Theorem empty_cursor_is_rejected resetQuery db_fetch db_fetchAll ctx
    options σ :
  options !! "after" = Some (VArray [])
  ∨ (options !! "after" = None ∧ options !! "before" = Some (VArray [])) →
  (∃ t, cursor_of options = inr (Some {| type := t; columnValues := [] |}))
  ∧ ∃ e, fst (fetchCursorPage resetQuery db_fetch db_fetchAll ctx options σ)
         = inl e.
Proof.
  intros Hempty.
  assert (∃ t, cursor_of options
               = inr (Some {| type := t; columnValues := [] |}))
    as [t Hcursor].
  { unfold cursor_of.
    destruct Hempty as [Hafter|[Hafter Hbefore]].
    - exists After. by rewrite Hafter.
    - exists Before. by rewrite Hafter, Hbefore. }
  split; [by exists t|].
  destruct (collection ctx) as [pager|] eqn:Hcollection.
  - destruct (applyCursor_no_values t (tableName (Model ctx))
                (idAttribute_or_id (Model ctx))
                (default blank (σ !! self ctx))) as [e He].
    exists e. apply fetchCursorPage_throws, dispatch_throws. right.
    eexists. split; [done|]. by rewrite Hcollection.
  - exists TypeError. apply fetchCursorPage_throws, dispatch_throws. right.
    eexists. split; [done|]. by rewrite Hcollection.
Qed.

Lemma empty_cursor_is_rejected_witness :
  ({[ "after" := VArray [] ]} : gmap string value) !! "after"
  = Some (VArray [])
  ∧ ∃ e, fst (collectionFetchCursorPage true Sample.two_rows Sample.count_53
                0%nat Sample.cars {[ "after" := VArray [] ]}
                Sample.one_collection) = inl e.
Proof.
  split; [reflexivity|].
  apply (empty_cursor_is_rejected true Sample.two_rows Sample.count_53
           {| self := 0%nat; collection := a_collection 0%nat;
              Model := Sample.cars |}
           {[ "after" := VArray [] ]} Sample.one_collection).
  left. reflexivity.
Defined.



(** ** Further properties of the cursors of a page *)

(** X6.  The cursors of a page go back in: the [after] (or [before])
    cursor of a page, given as the [after] (or [before]) option of the
    next call, decodes to a cursor with the same values, whatever else
    the options hold, and [applyCursor] accepts it on every query with
    the same sort columns. *)
Theorem cursors_round_trip sortedColumns coll values :
  (after (extractCursors sortedColumns coll) = Some values →
   (∀ options,
      cursor_of (<["after" := VArray values]> options)
      = inr (Some {| type := After; columnValues := values |}))
   ∧ ∀ mainTableName idAttribute qb,
       fst (applyCursor None mainTableName idAttribute qb)
       = inr sortedColumns →
       fst (applyCursor (Some {| type := After; columnValues := values |})
              mainTableName idAttribute qb) = inr sortedColumns)
  ∧ (before (extractCursors sortedColumns coll) = Some values →
     (∀ options, options !! "after" = None →
        cursor_of (<["before" := VArray values]> options)
        = inr (Some {| type := Before; columnValues := values |}))
     ∧ ∀ mainTableName idAttribute qb,
         fst (applyCursor None mainTableName idAttribute qb)
         = inr sortedColumns →
         fst (applyCursor (Some {| type := Before; columnValues := values |})
                mainTableName idAttribute qb) = inr sortedColumns).
Proof.
  assert (∀ t mainTableName idAttribute qb,
    length values = length sortedColumns →
    fst (applyCursor None mainTableName idAttribute qb) = inr sortedColumns →
    fst (applyCursor (Some {| type := t; columnValues := values |})
           mainTableName idAttribute qb) = inr sortedColumns) as Haccepted.
  { intros t mainTableName idAttribute qb Hlen Hnone.
    rewrite applyCursor_Some.
    destruct (applyCursor None mainTableName idAttribute qb)
      as [[e|cols] qb1]; cbn [fst] in Hnone; [done|].
    injection Hnone as ->.
    by rewrite bool_decide_eq_false_2 by (cbn; rewrite Hlen; by intros ?). }
  assert (∀ (m : model), length (model2cursor sortedColumns m)
                         = length sortedColumns) as Hlength.
  { intros m. unfold model2cursor. apply length_map. }
  unfold extractCursors.
  destruct (length coll =? 0)%nat; cbn [after before]; [by split|].
  split.
  - destruct (coll !! _) as [m|]; cbn; [|done]. intros [= <-]. split.
    + intros options. unfold cursor_of. by rewrite lookup_insert_eq.
    + intros. by apply Haccepted.
  - destruct (coll !! 0%nat) as [m|]; cbn; [|done]. intros [= <-]. split.
    + intros options Hafter. unfold cursor_of.
      rewrite lookup_insert_ne by done.
      by rewrite Hafter, lookup_insert_eq.
    + intros. by apply Haccepted.
Qed.

Lemma cursors_round_trip_witness :
  after (extractCursors [{| name := "id"; direction := None |}]
           (Sample.two_rows ∅ blank)) = Some [VNumber (Int 7)]
  ∧ cursor_of (<["after" := VArray [VNumber (Int 7)]]> ∅)
    = inr (Some {| type := After; columnValues := [VNumber (Int 7)] |}).
Proof.
  split; [reflexivity|].
  apply (proj1 (cursors_round_trip
                  [{| name := "id"; direction := None |}]
                  (Sample.two_rows ∅ blank) [VNumber (Int 7)])).
  reflexivity.
Defined.

Lemma extractCursors_cons sortedColumns first rest :
  extractCursors sortedColumns (first :: rest)
  = {| after := Some (model2cursor sortedColumns (List.last rest first));
       before := Some (model2cursor sortedColumns first) |}.
Proof.
  unfold extractCursors.
  cbn [length Nat.eqb]. rewrite Nat.sub_succ, Nat.sub_0_r.
  by rewrite lookup_last.
Qed.

Lemma lookup_map {A B} (f : A → B) (l : list A) (i : nat) :
  List.map f l !! i = f <$> l !! i.
Proof.
  revert i. induction l as [|x l IH]; intros [|i]; by cbn.
Qed.

(** X7.  Both cursors of a page are present exactly when the page has a
    record, and each has one value per sort column; on a page of one
    record they are equal; a sort column that is not an attribute of the
    record gives [undefined] at its place. *)
Theorem extractCursors_shape :
  (∀ sortedColumns coll,
     (is_Some (after (extractCursors sortedColumns coll)) ↔ coll ≠ [])
     ∧ (is_Some (before (extractCursors sortedColumns coll)) ↔ coll ≠ []))
  ∧ (∀ sortedColumns coll values,
       after (extractCursors sortedColumns coll) = Some values
       ∨ before (extractCursors sortedColumns coll) = Some values →
       length values = length sortedColumns)
  ∧ (∀ sortedColumns m,
       after (extractCursors sortedColumns [m])
       = before (extractCursors sortedColumns [m]))
  ∧ (∀ sortedColumns (first : model) rest values i c,
       before (extractCursors sortedColumns (first :: rest)) = Some values →
       sortedColumns !! i = Some c →
       first !! name c = None →
       values !! i = Some VUndefined).
Proof.
  repeat apply conj.
  - intros sortedColumns [|first rest].
    + split; split; try done; by intros [? [= ]].
    + rewrite extractCursors_cons. by split; split.
  - intros sortedColumns [|first rest] values; [by intros [[= ]|[= ]]|].
    rewrite extractCursors_cons. cbn [after before].
    intros [[= <-]|[= <-]]; apply length_map.
  - done.
  - intros sortedColumns first rest values i c.
    rewrite extractCursors_cons. cbn [before]. intros [= <-] Hc Hmissing.
    unfold model2cursor. rewrite lookup_map, Hc. cbn.
    unfold get_attribute. by rewrite Hmissing.
Qed.

Lemma extractCursors_shape_witness :
  before (extractCursors [{| name := "price"; direction := None |}]
            (Sample.two_rows ∅ blank)) = Some [VUndefined]
  ∧ [VUndefined] !! 0%nat = Some VUndefined.
Proof.
  split; [reflexivity|].
  apply (proj2 (proj2 (proj2 extractCursors_shape))
           [{| name := "price"; direction := None |}]
           (Sample.record 6 "red") [Sample.record 7 "blue"]
           [VUndefined] 0%nat {| name := "price"; direction := None |});
    reflexivity.
Defined.

(* ===================================================================== *)
(** * Further properties of the sort columns *)
(* ===================================================================== *)





Lemma string_app_assoc (s1 s2 s3 : string) :
  (s1 ++ s2) ++ s3 = s1 ++ s2 ++ s3.
Proof.
  induction s1 as [|c s1 IH]; [done|].
  change (String c (s1 ++ s2) ++ s3 = String c (s1 ++ s2 ++ s3)).
  change (String c ((s1 ++ s2) ++ s3) = String c (s1 ++ s2 ++ s3)).
  by rewrite IH.
Qed.

Lemma dotless_not_prefix s r : dotless s → s ≠ s ++ "." ++ r.
Proof. intros Hs. by apply dotless_not_qualified. Qed.

(** X9.  A main table name with a dot in it is never recognised: a
    column qualified with it is read as qualified with the part before
    the first dot and refused, and on a builder without ordering the
    implicit ordering on [table.identity] is added and then refused in
    the same way, whatever the cursor. *)
Theorem dotted_table_name_is_refused :
  (∀ schema table colName direction,
     dotless schema →
     sortedColumn (schema ++ "." ++ table)
       (orderByBasic ((schema ++ "." ++ table) ++ "." ++ colName) direction)
     = inl UnsupportedSortTarget)
  ∧ (∀ cursor schema table idAttribute qb,
       dotless schema →
       List.filter is_orderByBasic (_statements qb) = [] →
       applyCursor cursor (schema ++ "." ++ table) idAttribute qb
       = (inl UnsupportedSortTarget,
          orderBy ((schema ++ "." ++ table) ++ "." ++ idAttribute) None qb)).
Proof.
  assert (∀ schema table colName direction,
    dotless schema →
    sortedColumn (schema ++ "." ++ table)
      (orderByBasic ((schema ++ "." ++ table) ++ "." ++ colName) direction)
    = inl UnsupportedSortTarget) as Hrefused.
  { intros schema table colName direction Hschema.
    rewrite string_app_assoc.
    change (("." ++ table) ++ "." ++ colName)
      with ("." ++ table ++ "." ++ colName).
    rewrite sortedColumn_qualified by done.
    by rewrite bool_decide_eq_true_2 by by apply dotless_not_prefix. }
  split; [done|].
  intros cursor schema table idAttribute qb Hschema Hqb.
  rewrite applyCursor_unsorted by done.
  assert (sortedColumns (schema ++ "." ++ table)
            (orderBy ((schema ++ "." ++ table) ++ "." ++ idAttribute) None qb)
          = inl UnsupportedSortTarget) as Hthrows.
  { unfold sortedColumns. rewrite orderBy_filter_unsorted by done.
    cbn [map_result]. by rewrite Hrefused. }
  destruct cursor as [cursor|].
  - rewrite applyCursor_sorted_Some by apply orderBy_filter.
    by rewrite Hthrows.
  - rewrite applyCursor_sorted_None by apply orderBy_filter.
    by rewrite Hthrows.
Qed.

Lemma dotted_table_name_is_refused_witness :
  dotless "public"
  ∧ applyCursor None ("public" ++ "." ++ "cars") "id" Sample.filtered
    = (inl UnsupportedSortTarget,
       orderBy (("public" ++ "." ++ "cars") ++ "." ++ "id") None
               Sample.filtered).
Proof.
  split; [reflexivity|].
  apply (proj2 dotted_table_name_is_refused None "public" "cars" "id"
           Sample.filtered);
    reflexivity.
Defined.

(** X10.  Of a column reference only the first two parts are read: a
    column qualified with the main table is named by the part between
    the first and the second dot, and what follows a second dot is
    dropped. *)
Theorem sortedColumn_reads_two_parts mainTableName colName rest direction :
  dotless mainTableName → dotless colName →
  sortedColumn mainTableName
    (orderByBasic (mainTableName ++ "." ++ colName ++ "." ++ rest) direction)
  = inr {| name := colName; direction := direction |}.
Proof.
  intros Hmain Hcol.
  rewrite sortedColumn_qualified by done.
  rewrite bool_decide_eq_false_2 by by intros ?.
  by rewrite split_qualified.
Qed.

Lemma sortedColumn_reads_two_parts_witness :
  dotless "cars" ∧ dotless "data"
  ∧ sortedColumn "cars"
      (orderByBasic ("cars" ++ "." ++ "data" ++ "." ++ "price") (Some "DESC"))
    = inr {| name := "data"; direction := Some "DESC" |}.
Proof.
  split; [reflexivity|]. split; [reflexivity|].
  apply (sortedColumn_reads_two_parts "cars" "data" "price" (Some "DESC"));
    reflexivity.
Defined.

(** Only the exact string [DESC] counts as descending: any other
    direction, [desc] in lower case included, is compared as an ascending
    column.  A [before] cursor compares every column the other way round
    than an [after] cursor, and a [DESC] column the other way round than
    an ascending one; reversing twice gives the sign back. *)
Lemma sign_of_directions :
  (∀ t d, d ≠ Some "DESC" → sign_of t d = sign_of t None)
  ∧ sign_of After (Some "desc") = Gt
  ∧ (∀ d, sign_of Before d = reverseSign (sign_of After d))
  ∧ (∀ t, sign_of t (Some "DESC") = reverseSign (sign_of t None))
  ∧ (∀ s, reverseSign (reverseSign s) = s).
Proof.
  repeat apply conj.
  - intros t d Hd. unfold sign_of.
    by rewrite bool_decide_eq_false_2, bool_decide_eq_false_2.
  - done.
  - intros d. unfold sign_of. by destruct (bool_decide _).
  - by intros [].
  - by intros [].
Qed.

(* ===================================================================== *)
(** * Further properties of [count] *)
(* ===================================================================== *)

Lemma notNeeded_grouping s :
  negb (notNeeded s)
  = bool_decide (statement_grouping s ∉ ["order"; "group"; "columns"]).
Proof.
  by destruct s; vm_compute.
Qed.

(** The count query keeps, in their order, the statements of the
    base that are neither orderings, nor groupings, nor select lists or
    aggregates (joins, where and having statements stay), puts the
    distinct count of [table.identity] behind them, and keeps the limit
    of the base. *)
Lemma count_query_keeps_the_rest base tableName idAttribute :
  _statements (count_query base tableName idAttribute)
  = (List.filter
       (λ s, bool_decide
               (statement_grouping s ∉ ["order"; "group"; "columns"]))
       (_statements base)
     ++ [aggregate "count" (tableName ++ "." ++ idAttribute) true])%list
  ∧ _single_limit (count_query base tableName idAttribute)
    = _single_limit base.
Proof.
  split; [|done].
  rewrite count_query_statements. f_equal.
  apply List.filter_ext. intros s. apply notNeeded_grouping.
Qed.

Lemma filter_idempotent {A} (f : A → bool) (l : list A) :
  List.filter f (List.filter f l) = List.filter f l.
Proof.
  induction l as [|x l IH]; [done|]. cbn.
  destruct (f x) eqn:Hx; cbn; [|done]. by rewrite Hx, IH.
Qed.

(** X11.  Counting is insensitive to what it strips: the count query of
    a count query is that count query, and an ordering, grouping, select
    list or aggregate added at the end of the base does not change its
    count query. *)
Theorem count_query_idempotent :
  (∀ base tableName idAttribute,
     count_query (count_query base tableName idAttribute)
                 tableName idAttribute
     = count_query base tableName idAttribute)
  ∧ (∀ base tableName idAttribute s,
       statement_grouping s ∈ ["order"; "group"; "columns"] →
       count_query (push s base) tableName idAttribute
       = count_query base tableName idAttribute).
Proof.
  split.
  - intros base tableName idAttribute.
    unfold count_query at 1. unfold countDistinct, push, remove.
    rewrite count_query_statements, List.filter_app, filter_idempotent.
    cbn. by rewrite app_nil_r.
  - intros base tableName idAttribute s Hs.
    unfold count_query, countDistinct, push, remove. cbn [_statements].
    rewrite List.filter_app. cbn [List.filter].
    rewrite notNeeded_grouping, bool_decide_eq_false_2 by by intros ?.
    cbn [_single_limit]. by rewrite app_nil_r.
Qed.

Lemma count_query_idempotent_witness :
  statement_grouping (orderByBasic "cars.colA" (Some "ASC"))
    ∈ ["order"; "group"; "columns"]
  ∧ count_query (push (orderByBasic "cars.colA" (Some "ASC")) Sample.filtered)
                "cars" "id"
    = count_query Sample.filtered "cars" "id".
Proof.
  assert (statement_grouping (orderByBasic "cars.colA" (Some "ASC"))
            ∈ ["order"; "group"; "columns"]) as H by left.
  split; [exact H|].
  exact (proj2 count_query_idempotent Sample.filtered "cars" "id" _ H).
Defined.

(* ===================================================================== *)
(** * Further properties of the page count and of the limit *)
(* ===================================================================== *)

(** X12.  With a positive limit and a count that reads as a number of
    rows [r] that is not negative, [pageCount] is the least number of
    pages of [limit] rows that hold [r] rows; it is 0 exactly when there
    is no row. *)
Theorem pageCount_is_least req coll key val r l :
  requests_limit req = Int l → parseInt val = Int r →
  (0 ≤ r)%Z → (0 < l)%Z →
  ∃ n,
    pagination (settle req coll (Some [ {[ key := val ]} ]))
    = {| rowCount := Some (Int r);
         limit := Int l;
         pageCount := Int n;
         pagination_cursors := extractCursors (page_sortedColumns req) coll |}
    ∧ ((n - 1) * l < r ≤ n * l)%Z
    ∧ (n = 0%Z ↔ r = 0%Z).
Proof.
  intros Hl Hr Hr0 Hl0.
  exists (- (- r / l)).
  unfold settle. rewrite count_metadata_one_row, Hl, Hr.
  cbn [metadata_rowCount metadata_limit ceil_div].
  destruct (Z.eqb_spec l 0) as [->|_]; [lia|].
  split; [done|].
  pose proof (Z.div_mod (- r) l) as Hdiv.
  pose proof (Z.mod_pos_bound (- r) l Hl0) as Hmod.
  split; [nia|nia].
Qed.

Lemma pageCount_is_least_witness :
  ∃ n,
    pageCount
      (pagination
         (settle {| page_query := blank; page_fetchOptions := ∅;
                    page_sortedColumns := []; counter_query := blank;
                    requests_limit := Int 15 |}
                 [] (Sample.count_53 blank))) = Int n
    ∧ ((n - 1) * 15 < 53 ≤ n * 15)%Z.
Proof.
  destruct (pageCount_is_least
              {| page_query := blank; page_fetchOptions := ∅;
                 page_sortedColumns := []; counter_query := blank;
                 requests_limit := Int 15 |}
              [] "count(distinct cars.id)" (VString "53") 53 15
              eq_refl eq_refl ltac:(lia) ltac:(lia)) as (n & Hn & Hbounds & _).
  exists n. split; [|exact Hbounds].
  change (Sample.count_53 blank)
    with (Some [ ({[ "count(distinct cars.id)" := VString "53" ]} : model) ]).
  by rewrite Hn.
Defined.






(* ===================================================================== *)
(** * The rows the page query selects *)
(* ===================================================================== *)

Section selection_facts.

Local Open Scope list_scope.

Context (compare : string → value → value → bool).
Context (raw : string → (string → value) → bool).
Context (row : string → value).

Lemma joined_or cur ps :
  joined cur ((λ p, (Or, p)) <$> ps) = cur || existsb id ps.
Proof.
  revert cur. induction ps as [|p ps IH]; intros cur; cbn.
  - by rewrite orb_false_r.
  - by rewrite IH.
Qed.

Lemma joined_and cur ps :
  joined cur ((λ p, (And, p)) <$> ps) = cur && forallb id ps.
Proof.
  revert cur. induction ps as [|p ps IH]; intros cur; cbn.
  - by rewrite andb_true_r.
  - by rewrite IH, andb_assoc.
Qed.

(** A statement joined by [OR] closes the conjunction in progress. *)
Lemma joined_app_or cur l p rest :
  joined cur (l ++ (Or, p) :: rest) = joined cur l || joined p rest.
Proof.
  revert cur. induction l as [|[[] q] l IH]; intros cur; cbn; [done|..].
  - apply IH.
  - by rewrite IH, orb_assoc.
Qed.

Lemma conditions_all_and ps :
  ps ≠ [] →
  conditions ((λ p, (And, p)) <$> ps) = Some (forallb id ps).
Proof.
  destruct ps as [|p ps]; [done|]. intros _. cbn.
  by rewrite joined_and.
Qed.

Lemma conditions_app_or l ts :
  ts ≠ [] →
  conditions (l ++ ((λ p, (Or, p)) <$> ts))
  = Some match conditions l with
         | Some b => b || existsb id ts
         | None => existsb id ts
         end.
Proof.
  destruct ts as [|t ts]; [done|]. intros _.
  destruct l as [|[b0 p0] l]; cbn.
  - by rewrite joined_or.
  - by rewrite joined_app_or, joined_or.
Qed.

Lemma compiled_app l1 l2 :
  compiled compare raw row (l1 ++ l2)
  = compiled compare raw row l1 ++ compiled compare raw row l2.
Proof.
  induction l1 as [|s l1 IH]; [done|]. cbn.
  destruct (holds compare raw row s); by rewrite IH.
Qed.

Lemma holds_whereWrapped body bool :
  holds compare raw row (whereWrapped body bool)
  = conditions (compiled compare raw row body).
Proof.
  cbn [holds]. f_equal.
  induction body as [|s body IH]; [done|]. cbn.
  destruct (holds compare raw row s); by rewrite IH.
Qed.

Lemma compiled_equalities (values : list value) (k : nat)
    (l : list SortColumn) :
  compiled compare raw row
    (imap (λ j c_j, whereBasic (name c_j) "="
                      (List.nth (k + j) values VUndefined) And) l)
  = (λ p, (And, p)) <$>
      imap (λ j c_j, compare "=" (row (name c_j))
                       (List.nth (k + j) values VUndefined)) l.
Proof.
  revert k. induction l as [|c l IH]; intros k; [done|].
  cbn. f_equal.
  rewrite (imap_ext _ (λ j c_j, whereBasic (name c_j) "="
                                  (List.nth (S k + j) values VUndefined) And))
    by (intros; cbn; do 2 f_equal; lia).
  rewrite IH. f_equal. apply imap_ext. intros; cbn. do 2 f_equal. lia.
Qed.

(** The condition of one term of the keyset predicate. *)
Lemma holds_keyset_term cursor cols i c_i :
  holds compare raw row (keyset_term cursor cols i c_i)
  = Some (forallb id
            (imap (λ j c_j, compare "=" (row (name c_j))
                              (List.nth j (columnValues cursor) VUndefined))
                  (take i cols))
          && compare (keyset_sign (type cursor) (direction c_i))
               (row (name c_i))
               (List.nth i (columnValues cursor) VUndefined)).
Proof.
  unfold keyset_term. rewrite holds_whereWrapped, compiled_app.
  pose proof (compiled_equalities (columnValues cursor) 0 (take i cols))
    as Heq. cbn [Nat.add] in Heq. rewrite Heq.
  cbn [compiled holds statement_bool].
  change [(And, ?q)] with ((λ p, (And, p)) <$> [q]).
  rewrite <- fmap_app, conditions_all_and.
  2:{ intros H. symmetry in H. by apply app_cons_not_nil in H. }
  by rewrite forallb_app; cbn; rewrite andb_true_r.
Qed.

Lemma compiled_keyset_terms (f : nat → SortColumn → statement)
    (g : nat → SortColumn → bool) (l : list SortColumn) :
  (∀ i c, holds compare raw row (f i c) = Some (g i c)) →
  (∀ i c, statement_bool (f i c) = Or) →
  compiled compare raw row (imap f l) = (λ p, (Or, p)) <$> imap g l.
Proof.
  revert f g. induction l as [|c l IH]; intros f g Hholds Hbool; [done|].
  cbn. rewrite Hholds, Hbool. f_equal. apply IH; intros; by cbn.
Qed.

(** The disjunction of the terms is the comparison of the row with the
    cursor, column after column. *)
Lemma keyset_terms_beyond (t : cursorType) (values : list value)
    (cols visitedCols : list SortColumn) :
  (length visitedCols + length cols ≤ length values)%nat →
  existsb id
    (imap (λ i c_i,
             forallb id
               (imap (λ j c_j, compare "=" (row (name c_j))
                                 (List.nth j values VUndefined))
                     (take (length visitedCols + i)%nat
                           (visitedCols ++ cols)))
             && compare (keyset_sign t (direction c_i)) (row (name c_i))
                  (List.nth (length visitedCols + i)%nat values VUndefined))
          cols)
  = forallb id
      (imap (λ j c_j, compare "=" (row (name c_j))
                        (List.nth j values VUndefined)) visitedCols)
    && beyond compare t cols (drop (length visitedCols) values) row.
Proof.
  revert visitedCols.
  induction cols as [|c cols IH]; intros visitedCols Hlen.
  - cbn. by rewrite andb_false_r.
  - rewrite (imap_cons _ c). cbn [existsb id].
    rewrite Nat.add_0_r, take_app_length.
    rewrite (imap_ext _
      (λ i c_i,
         forallb id
           (imap (λ j c_j, compare "=" (row (name c_j))
                             (List.nth j values VUndefined))
                 (take (length (visitedCols ++ [c]) + i)%nat
                       ((visitedCols ++ [c]) ++ cols)))
         && compare (keyset_sign t (direction c_i)) (row (name c_i))
              (List.nth (length (visitedCols ++ [c]) + i)%nat values
                        VUndefined))
      cols).
    2:{ intros i c' _. cbn.
        rewrite <- (app_assoc visitedCols [c]), length_app. cbn.
        by replace (length visitedCols + S i)%nat
          with (length visitedCols + 1 + i)%nat by lia. }
    cbn [length] in Hlen.
    rewrite IH by (rewrite length_app; cbn; lia).
    rewrite imap_app, forallb_app, length_app. cbn [imap forallb id length].
    rewrite Nat.add_0_r, andb_true_r.
    destruct (values !! length visitedCols) as [v|] eqn:Hv.
    2:{ apply lookup_ge_None in Hv. lia. }
    rewrite (drop_S _ _ _ Hv).
    replace (length visitedCols + 1)%nat with (S (length visitedCols))
      by lia.
    cbn [beyond].
    replace (List.nth (length visitedCols) values VUndefined) with v.
    2:{ rewrite nth_lookup. by rewrite Hv. }
    destruct (forallb id _), (compare (keyset_sign _ _) _ _),
      (compare "=" _ _); done.
Qed.

(** The where clause of a builder to which the keyset predicate has been
    added. *)
Lemma where_clause_keyset cursor cols statements l :
  cols ≠ [] → length cols = length (columnValues cursor) →
  where_clause compare raw row
    (Builder (statements ++ keyset_predicate cursor cols) l)
  = Some match where_clause compare raw row (Builder statements l) with
         | Some b =>
             b || beyond compare (type cursor) cols (columnValues cursor) row
         | None => beyond compare (type cursor) cols (columnValues cursor) row
         end.
Proof.
  intros Hne Hlen. unfold where_clause. cbn [_statements].
  rewrite compiled_app. unfold keyset_predicate.
  rewrite (compiled_keyset_terms _ _ _
             (holds_keyset_term cursor cols)) by done.
  rewrite conditions_app_or by by destruct cols.
  pose proof (keyset_terms_beyond (type cursor) (columnValues cursor)
                cols []) as Hbeyond.
  cbn [length Nat.add app imap forallb andb drop] in Hbeyond.
  by rewrite Hbeyond by lia.
Qed.

Lemma where_clause_orderBy column direction qb :
  where_clause compare raw row (orderBy column direction qb)
  = where_clause compare raw row qb.
Proof.
  unfold where_clause, orderBy, push. cbn [_statements].
  rewrite compiled_app. cbn. by rewrite app_nil_r.
Qed.

(** The where clause of the page query, in terms of the one of the base
    query. *)
Lemma where_clause_applyCursor cursor mainTableName idAttribute qb cols qb' :
  applyCursor (Some cursor) mainTableName idAttribute qb = (inr cols, qb') →
  where_clause compare raw row qb'
  = Some match where_clause compare raw row qb with
         | Some b =>
             b || beyond compare (type cursor) cols (columnValues cursor) row
         | None => beyond compare (type cursor) cols (columnValues cursor) row
         end.
Proof.
  intros Happly.
  assert (fst (applyCursor (Some cursor) mainTableName idAttribute qb)
          = inr cols) as Hcols by by rewrite Happly.
  apply applyCursor_returns_inv in Hcols as (Hne & _ & Hlen).
  rewrite applyCursor_Some, applyCursor_None_run in Happly. cbn zeta in Happly.
  destruct (sortedColumns _ _) as [e|cols'] eqn:Hsorted; [done|].
  case_bool_decide; [done|]. injection Happly as -> <-.
  rewrite where_clause_keyset by done.
  assert (∀ qb1 : builder,
    where_clause compare raw row
      (Builder (_statements qb1) (_single_limit qb1))
    = where_clause compare raw row qb1) as Heta by by intros [].
  rewrite Heta.
  destruct (List.filter is_orderByBasic (_statements qb));
    by rewrite ?where_clause_orderBy.
Qed.

End selection_facts.

(** X15.  On a base query without a where clause, the page query with a
    cursor selects exactly the rows that lie strictly beyond the cursor
    in the order of the sort columns: past it on the first column, or
    equal to it there and beyond it on the columns that follow, each
    column compared in its own direction.  This holds for whatever the
    database takes the comparisons to mean. *)
Theorem page_selects_beyond_cursor compare raw row cursor mainTableName
    idAttribute qb cols qb' :
  applyCursor (Some cursor) mainTableName idAttribute qb = (inr cols, qb') →
  where_clause compare raw row qb = None →
  selects compare raw row qb'
  = beyond compare (type cursor) cols (columnValues cursor) row.
Proof.
  intros Happly Hbase. unfold selects.
  by rewrite (where_clause_applyCursor _ _ _ _ _ _ _ _ _ Happly), Hbase.
Qed.

Lemma page_selects_beyond_cursor_witness :
  applyCursor (Some Sample.after_5) "cars" "id" blank
  = (inr [{| name := "id"; direction := None |}],
     Builder [orderByBasic "cars.id" None;
              whereWrapped [whereBasic "id" ">" (VNumber (Int 5)) And] Or]
             None)
  ∧ where_clause Rows.by_number Rows.no_raw Rows.row_7 blank = None
  ∧ selects Rows.by_number Rows.no_raw Rows.row_7
      (Builder [orderByBasic "cars.id" None;
                whereWrapped [whereBasic "id" ">" (VNumber (Int 5)) And] Or]
               None)
    = beyond Rows.by_number After [{| name := "id"; direction := None |}]
             [VNumber (Int 5)] Rows.row_7.
Proof.
  split; [reflexivity|]. split; [reflexivity|].
  apply (page_selects_beyond_cursor Rows.by_number Rows.no_raw Rows.row_7
           Sample.after_5 "cars" "id" blank);
    reflexivity.
Defined.

(** X16.  On a base query with a where clause, the keyset predicate is
    joined to it by [OR]: the page query selects the rows the base query
    selects together with the rows beyond the cursor, so that a row the
    base query selects is selected whatever the cursor. *)
Theorem page_selects_base_or_beyond compare raw row cursor mainTableName
    idAttribute qb cols qb' b :
  applyCursor (Some cursor) mainTableName idAttribute qb = (inr cols, qb') →
  where_clause compare raw row qb = Some b →
  selects compare raw row qb'
  = selects compare raw row qb
    || beyond compare (type cursor) cols (columnValues cursor) row.
Proof.
  intros Happly Hbase. unfold selects.
  by rewrite (where_clause_applyCursor _ _ _ _ _ _ _ _ _ Happly), Hbase.
Qed.

Lemma page_selects_base_or_beyond_witness :
  where_clause Rows.by_number Rows.no_raw Rows.row_3 Sample.filtered
  = Some true
  ∧ beyond Rows.by_number After [{| name := "id"; direction := None |}]
           [VNumber (Int 5)] Rows.row_3 = false
  ∧ selects Rows.by_number Rows.no_raw Rows.row_3
      (snd (applyCursor (Some Sample.after_5) "cars" "id" Sample.filtered))
    = selects Rows.by_number Rows.no_raw Rows.row_3 Sample.filtered
      || beyond Rows.by_number After [{| name := "id"; direction := None |}]
                [VNumber (Int 5)] Rows.row_3.
Proof.
  split; [reflexivity|]. split; [reflexivity|].
  apply (page_selects_base_or_beyond Rows.by_number Rows.no_raw Rows.row_3
           Sample.after_5 "cars" "id" Sample.filtered
           [{| name := "id"; direction := None |}] _ true);
    reflexivity.
Defined.
